(** * prowler: database helpers (dbhelpers.py)

    A shallow embedding of [dbhelpers.py]: the get-or-create primitive, list
    membership, product links, watches, category resolution and the sales
    analytics of [ProductHistoryStats], with the properties the specification
    states about them.

    Conventions of the embedding.
    - The SQLAlchemy session is a record of tables, each a list of rows in
      insertion order.  [query(...).first()] is the first row of the table
      that passes the filter.  The session autoflushes before every query
      (SQLAlchemy's default), so an object passed to [session.add] is seen by
      every later query: [add] appends the row and hands out its primary key
      at once, and [delete] removes the row at once.
    - A helper is a computation [M A]: it reads and writes the session and
      either returns a value or raises; writes made before a raise stay.
    - A [datetime] is its number of microseconds since the epoch, and
      [timestamp()] (POSIX seconds) its exact rational value; the slope
      arithmetic is carried out on rationals, where Python rounds to binary
      floating point. *)

From Stdlib Require Import ZArith QArith List String Bool Lia.
From Stdlib Require Import Sorted Permutation DecimalString.
Import ListNotations.
Local Open Scope string_scope.
Local Open Scope Z_scope.

(** ** The entity classes *)

(** Modelled from the spec: the entity classes of module [database], which
    [dbhelpers.py] imports and which is not part of the source tree.  One
    record per class, one field per column the helpers touch.  A column that
    was never assigned is [None]; so is the primary key [id] of an object that
    was not added to a session yet. *)
Module database.

(** [isinstance(first, AmazonListing)] inspects this tag. *)
Inductive listing_class := AmazonListing | VendorListing.

Module Listing.
Record t := mk { id : option Z; class : listing_class }.
End Listing.

Module ListMembership.
Record t := mk { id : option Z; list_id : option Z; listing_id : option Z }.
End ListMembership.

Module LinkedProducts.
Record t := mk {
  id : option Z;
  amz_listing_id : option Z;
  vnd_listing_id : option Z;
  confidence : option Q }.
End LinkedProducts.

(** A value of the [params] mapping of an operation. *)
Inductive param := PBool (b : bool) | PStr (s : string).

Module Operation.
Record t := mk {
  id : option Z;
  operation : option string;
  listing_id : option Z;
  priority : option Z;
  params : list (string * param);
  scheduled : option Z }.

(** The named constructor [Operation.UpdateAmazonListing]; the helpers pass
    it [listing_id] and [priority]. *)
Definition UpdateAmazonListing (listing_id priority : Z) : t :=
  mk None (Some "UpdateAmazonListing") (Some listing_id) (Some priority) [] None.
End Operation.

Module AmazonCategory.
Record t := mk {
  id : option Z;
  product_category_id : option string;
  name : option string;
  product_groups : list string }.
End AmazonCategory.

Module AmzProductHistory.
Record t := mk {
  id : Z;
  amz_listing_id : Z;
  timestamp : Z;     (* microseconds since the epoch *)
  salesrank : Z }.
End AmzProductHistory.

Module List.
Record t := mk { id : option Z; name : option string; is_amazon : option bool }.
End List.

End database.

(** ** The session *)

Record session := mkSession {
  listings : list database.Listing.t;
  lists : list database.List.t;
  memberships : list database.ListMembership.t;
  links : list database.LinkedProducts.t;
  operations : list database.Operation.t;
  categories : list database.AmazonCategory.t;
  history : list database.AmzProductHistory.t;
  clock : Z;                 (* the current time, in microseconds *)
  scored : list (option Z);  (* links [build_confidence] was invoked on *)
  stdout : list string       (* lines printed so far *)
}.

Definition empty_session : session :=
  mkSession [] [] [] [] [] [] [] 0 [] [].

Definition set_lists (l : list database.List.t) (s : session) : session :=
  mkSession (listings s) l (memberships s) (links s) (operations s)
            (categories s) (history s) (clock s) (scored s) (stdout s).

Definition set_memberships (l : list database.ListMembership.t) (s : session) :=
  mkSession (listings s) (lists s) l (links s) (operations s)
            (categories s) (history s) (clock s) (scored s) (stdout s).

Definition set_links (l : list database.LinkedProducts.t) (s : session) :=
  mkSession (listings s) (lists s) (memberships s) l (operations s)
            (categories s) (history s) (clock s) (scored s) (stdout s).

Definition set_operations (l : list database.Operation.t) (s : session) :=
  mkSession (listings s) (lists s) (memberships s) (links s) l
            (categories s) (history s) (clock s) (scored s) (stdout s).

Definition set_categories (l : list database.AmazonCategory.t) (s : session) :=
  mkSession (listings s) (lists s) (memberships s) (links s) (operations s)
            l (history s) (clock s) (scored s) (stdout s).

Definition set_history (l : list database.AmzProductHistory.t) (s : session) :=
  mkSession (listings s) (lists s) (memberships s) (links s) (operations s)
            (categories s) l (clock s) (scored s) (stdout s).

Definition set_clock (t : Z) (s : session) :=
  mkSession (listings s) (lists s) (memberships s) (links s) (operations s)
            (categories s) (history s) t (scored s) (stdout s).

Definition set_scored (l : list (option Z)) (s : session) :=
  mkSession (listings s) (lists s) (memberships s) (links s) (operations s)
            (categories s) (history s) (clock s) l (stdout s).

Definition set_stdout (l : list string) (s : session) :=
  mkSession (listings s) (lists s) (memberships s) (links s) (operations s)
            (categories s) (history s) (clock s) (scored s) l.

(** ** Computations over a session *)

Inductive exn := ZeroDivisionError | IndexError.

Inductive outcome (A : Type) :=
| Val (a : A)
| Raise (e : exn).
Arguments Val {A} a.
Arguments Raise {A} e.

Definition M (A : Type) : Type := session -> outcome A * session.

Definition ret {A} (a : A) : M A := fun s => (Val a, s).

Definition raise {A} (e : exn) : M A := fun s => (Raise e, s).

Definition bind {A B} (m : M A) (k : A -> M B) : M B :=
  fun s =>
    match m s with
    | (Val a, s') => k a s'
    | (Raise e, s') => (Raise e, s')
    end.

Declare Scope m_scope.
Delimit Scope m_scope with m.
Notation "x <- c1 ;; c2" := (bind c1 (fun x => c2))
  (at level 61, c1 at next level, right associativity) : m_scope.
Notation "c1 ;;; c2" := (bind c1 (fun _ => c2))
  (at level 61, right associativity) : m_scope.
Local Open Scope m_scope.

(** [for x in xs: body x] *)
Fixpoint for_each {A} (xs : list A) (body : A -> M unit) : M unit :=
  match xs with
  | [] => ret tt
  | x :: rest => body x ;;; for_each rest body
  end.

(** ** Tables and their rows *)

Definition opt_eqb {A} (eqb : A -> A -> bool) (x y : option A) : bool :=
  match x, y with
  | Some a, Some b => eqb a b
  | None, None => true
  | _, _ => false
  end.

(** SQL's [column = value]: a NULL column equals nothing. *)
Definition col_is {A} (eqb : A -> A -> bool) (column : option A) (v : A) : bool :=
  match column with
  | Some a => eqb a v
  | None => false
  end.

(** A mapped class: where its rows live in the session, and its primary key. *)
Class Table (T : Type) := {
  rows : session -> list T;
  set_rows : list T -> session -> session;
  pk : T -> option Z;
  set_pk : option Z -> T -> T;
  rows_set_rows : forall l s, rows (set_rows l s) = l;
  pk_set_pk : forall i r, pk (set_pk i r) = i
}.

(** The keyword arguments a mapped class accepts, [column=value]: what
    [filter_by(column=value)] tests and what the constructor assigns. *)
Class Columns (T : Type) `{Table T} := {
  Col : Type;
  column : Col -> string;
  holds : Col -> T -> bool;
  setattr : Col -> T -> T;
  blank : T;
  holds_setattr : forall c r, holds c (setattr c r) = true;
  holds_setattr_other : forall c c' r,
    column c <> column c' -> holds c (setattr c' r) = holds c r;
  holds_set_pk : forall c i r, holds c (set_pk i r) = holds c r;
  pk_setattr : forall c r, pk (setattr c r) = pk r;
  pk_blank : pk blank = None
}.

Definition max_pk {T} `{Table T} (l : list T) : Z :=
  fold_right (fun r m => match pk r with Some i => Z.max i m | None => m end) 0 l.

(** The key the store hands to the next inserted row. *)
Definition fresh_pk {T} `{Table T} (l : list T) : Z := max_pk l + 1.

(** [session.query(T).filter(f).first()] *)
Definition first (dtype : Type) `{Table dtype} (f : dtype -> bool) : M (option dtype) :=
  fun s => (Val (find f (rows s)), s).

(** [session.add(obj)]: a new object is inserted and gets its key; an object
    the session already holds stays as it is.  Returns the object as every
    later statement sees it. *)
Definition add {T} `{Table T} (obj : T) : M T :=
  fun s =>
    match pk obj with
    | Some _ => (Val obj, s)
    | None =>
        let obj' := set_pk (Some (fresh_pk (rows s))) obj in
        (Val obj', set_rows (rows s ++ [obj']) s)
    end.

(** [session.delete(obj)] *)
Definition delete {T} `{Table T} (obj : T) : M unit :=
  fun s =>
    match pk obj with
    | None => (Val tt, s)
    | Some i =>
        (Val tt,
         set_rows (filter (fun r => negb (opt_eqb Z.eqb (pk r) (Some i))) (rows s)) s)
    end.

(** [obj.attr = v]: objects are shared with the session, so assigning to an
    attribute of an object the session holds changes its row. *)
Definition assign {T} `{Table T} (upd : T -> T) (obj : T) : M T :=
  fun s =>
    let obj' := upd obj in
    match pk obj with
    | None => (Val obj', s)
    | Some i =>
        (Val obj',
         set_rows (map (fun r => if opt_eqb Z.eqb (pk r) (Some i) then obj' else r)
                       (rows s)) s)
    end.

(** [session.flush()]: nothing is left to write, see the conventions above. *)
Definition flush : M unit := ret tt.

(** ** get_or_create *)

(** [filter_by] applied to the keyword arguments *)
Definition filter_by (dtype : Type) `{Columns dtype} (kwargs : list Col) (r : dtype)
    : bool :=
  forallb (fun c => holds c r) kwargs.

(** [dtype] applied to the keyword arguments: each one is assigned *)
Definition construct (dtype : Type) `{Columns dtype} (kwargs : list Col) : dtype :=
  fold_left (fun r c => setattr c r) kwargs blank.

Definition get_or_create (dtype : Type) `{Columns dtype} (kwargs : list Col) : M dtype :=
  obj <- first dtype (filter_by dtype kwargs) ;;
  match obj with
  | Some o => ret o
  | None => add (construct dtype kwargs)
  end.

(** ** The mapped classes as tables *)

Import database.

#[export] Instance Listing_table : Table Listing.t := {|
  rows := listings;
  set_rows := fun l s =>
    mkSession l (lists s) (memberships s) (links s) (operations s)
              (categories s) (history s) (clock s) (scored s) (stdout s);
  pk := Listing.id;
  set_pk := fun i r => Listing.mk i (Listing.class r);
  rows_set_rows := fun l s => eq_refl;
  pk_set_pk := fun i r => eq_refl
|}.

#[export] Instance List_table : Table List.t := {|
  rows := lists;
  set_rows := set_lists;
  pk := List.id;
  set_pk := fun i r => List.mk i (List.name r) (List.is_amazon r);
  rows_set_rows := fun l s => eq_refl;
  pk_set_pk := fun i r => eq_refl
|}.

#[export] Instance ListMembership_table : Table ListMembership.t := {|
  rows := memberships;
  set_rows := set_memberships;
  pk := ListMembership.id;
  set_pk := fun i r =>
    ListMembership.mk i (ListMembership.list_id r) (ListMembership.listing_id r);
  rows_set_rows := fun l s => eq_refl;
  pk_set_pk := fun i r => eq_refl
|}.

#[export] Instance LinkedProducts_table : Table LinkedProducts.t := {|
  rows := links;
  set_rows := set_links;
  pk := LinkedProducts.id;
  set_pk := fun i r =>
    LinkedProducts.mk i (LinkedProducts.amz_listing_id r)
                      (LinkedProducts.vnd_listing_id r) (LinkedProducts.confidence r);
  rows_set_rows := fun l s => eq_refl;
  pk_set_pk := fun i r => eq_refl
|}.

#[export] Instance Operation_table : Table Operation.t := {|
  rows := operations;
  set_rows := set_operations;
  pk := Operation.id;
  set_pk := fun i r =>
    Operation.mk i (Operation.operation r) (Operation.listing_id r)
                 (Operation.priority r) (Operation.params r) (Operation.scheduled r);
  rows_set_rows := fun l s => eq_refl;
  pk_set_pk := fun i r => eq_refl
|}.

#[export] Instance AmazonCategory_table : Table AmazonCategory.t := {|
  rows := categories;
  set_rows := set_categories;
  pk := AmazonCategory.id;
  set_pk := fun i r =>
    AmazonCategory.mk i (AmazonCategory.product_category_id r)
                      (AmazonCategory.name r) (AmazonCategory.product_groups r);
  rows_set_rows := fun l s => eq_refl;
  pk_set_pk := fun i r => eq_refl
|}.

(** The keyword arguments of each class that goes through [get_or_create] or
    [filter_by].  [Membership_list] is the relationship keyword [list=obj]: it
    reads and writes the foreign key [list_id], as [Membership_list_id] does. *)
Inductive List_kw :=
| List_name (v : string)
| List_is_amazon (v : bool).

Inductive ListMembership_kw :=
| Membership_list (l : List.t)
| Membership_list_id (v : option Z)
| Membership_listing_id (v : Z).

Inductive LinkedProducts_kw :=
| Link_amz_listing_id (v : Z)
| Link_vnd_listing_id (v : Z).

Inductive AmazonCategory_kw :=
| Category_product_category_id (v : string)
| Category_name (v : string).

Ltac columns_law :=
  intros;
  repeat match goal with
         | c : List_kw |- _ => destruct c
         | c : ListMembership_kw |- _ => destruct c
         | c : LinkedProducts_kw |- _ => destruct c
         | c : AmazonCategory_kw |- _ => destruct c
         end;
  cbn in *;
  try congruence;
  repeat match goal with
         | |- context [opt_eqb _ ?x ?x] => destruct x; cbn
         end;
  auto using Z.eqb_refl, String.eqb_refl, Bool.eqb_reflx.

#[export] Instance List_columns : Columns List.t.
Proof.
  refine {|
  Col := List_kw;
  column := fun c =>
    match c with List_name _ => "name" | List_is_amazon _ => "is_amazon" end;
  holds := fun c r =>
    match c with
    | List_name v => col_is String.eqb (List.name r) v
    | List_is_amazon v => col_is Bool.eqb (List.is_amazon r) v
    end;
  setattr := fun c r =>
    match c with
    | List_name v => List.mk (List.id r) (Some v) (List.is_amazon r)
    | List_is_amazon v => List.mk (List.id r) (List.name r) (Some v)
    end;
  blank := List.mk None None None
|}; columns_law.
Defined.

#[export] Instance ListMembership_columns : Columns ListMembership.t.
Proof.
  refine {|
  Col := ListMembership_kw;
  column := fun c =>
    match c with
    | Membership_list _ => "list_id"
    | Membership_list_id _ => "list_id"
    | Membership_listing_id _ => "listing_id"
    end;
  holds := fun c r =>
    match c with
    | Membership_list l => opt_eqb Z.eqb (ListMembership.list_id r) (List.id l)
    | Membership_list_id v => opt_eqb Z.eqb (ListMembership.list_id r) v
    | Membership_listing_id v => col_is Z.eqb (ListMembership.listing_id r) v
    end;
  setattr := fun c r =>
    match c with
    | Membership_list l =>
        ListMembership.mk (ListMembership.id r) (List.id l) (ListMembership.listing_id r)
    | Membership_list_id v =>
        ListMembership.mk (ListMembership.id r) v (ListMembership.listing_id r)
    | Membership_listing_id v =>
        ListMembership.mk (ListMembership.id r) (ListMembership.list_id r) (Some v)
    end;
  blank := ListMembership.mk None None None
|}; columns_law.
Defined.

#[export] Instance LinkedProducts_columns : Columns LinkedProducts.t.
Proof.
  refine {|
  Col := LinkedProducts_kw;
  column := fun c =>
    match c with
    | Link_amz_listing_id _ => "amz_listing_id"
    | Link_vnd_listing_id _ => "vnd_listing_id"
    end;
  holds := fun c r =>
    match c with
    | Link_amz_listing_id v => col_is Z.eqb (LinkedProducts.amz_listing_id r) v
    | Link_vnd_listing_id v => col_is Z.eqb (LinkedProducts.vnd_listing_id r) v
    end;
  setattr := fun c r =>
    match c with
    | Link_amz_listing_id v =>
        LinkedProducts.mk (LinkedProducts.id r) (Some v)
                          (LinkedProducts.vnd_listing_id r) (LinkedProducts.confidence r)
    | Link_vnd_listing_id v =>
        LinkedProducts.mk (LinkedProducts.id r) (LinkedProducts.amz_listing_id r)
                          (Some v) (LinkedProducts.confidence r)
    end;
  blank := LinkedProducts.mk None None None None
|}; columns_law.
Defined.

#[export] Instance AmazonCategory_columns : Columns AmazonCategory.t.
Proof.
  refine {|
  Col := AmazonCategory_kw;
  column := fun c =>
    match c with
    | Category_product_category_id _ => "product_category_id"
    | Category_name _ => "name"
    end;
  holds := fun c r =>
    match c with
    | Category_product_category_id v =>
        col_is String.eqb (AmazonCategory.product_category_id r) v
    | Category_name v => col_is String.eqb (AmazonCategory.name r) v
    end;
  setattr := fun c r =>
    match c with
    | Category_product_category_id v =>
        AmazonCategory.mk (AmazonCategory.id r) (Some v) (AmazonCategory.name r)
                          (AmazonCategory.product_groups r)
    | Category_name v =>
        AmazonCategory.mk (AmazonCategory.id r) (AmazonCategory.product_category_id r)
                          (Some v) (AmazonCategory.product_groups r)
    end;
  blank := AmazonCategory.mk None None None []
|}; columns_law.
Defined.

(** ** Lists *)

(** Python's truth value of an optional string: [None] and the empty string
    are false. *)
Definition truthy (o : option string) : bool :=
  match o with
  | Some v => negb (v =? "")%string
  | None => false
  end.

(** [isinstance(obj, AmazonListing)], where [obj] may be [None] *)
Definition isinstance_AmazonListing (obj : option Listing.t) : bool :=
  match obj with
  | Some l => match Listing.class l with AmazonListing => true | VendorListing => false end
  | None => false
  end.

Definition add_ids_to_list (listing_ids : list Z) (list_name : string) : M unit :=
  add_list <- get_or_create List.t [List_name list_name] ;;
  for_each listing_ids (fun listing_id =>
    _ <- get_or_create ListMembership.t [Membership_list add_list; Membership_listing_id listing_id] ;;
    ret tt) ;;;
  match listing_ids with
  | [] => raise IndexError          (* listing_ids[0] *)
  | id0 :: _ =>
      first_ <- first Listing.t (fun l => col_is Z.eqb (Listing.id l) id0) ;;
      _ <- assign (fun l => List.mk (List.id l) (List.name l)
                                    (Some (isinstance_AmazonListing first_)))
                  add_list ;;
      ret tt
  end.

Definition remove_ids_from_list (listing_ids : list Z) (list_name : string) : M unit :=
  rm_list <- first List.t (filter_by List.t [List_name list_name]) ;;
  match rm_list, listing_ids with
  | None, _ => ret tt
  | Some _, [] => ret tt
  | Some rm_list, _ =>
      for_each listing_ids (fun listing_id =>
        membership <- first ListMembership.t
                        (filter_by ListMembership.t
                           [Membership_list_id (List.id rm_list);
                            Membership_listing_id listing_id]) ;;
        match membership with
        | Some m => delete m
        | None => ret tt
        end)
  end.

(** ** Links *)

(** Modelled from the spec: [LinkedProducts.build_confidence], a method of
    module [database]: it computes a confidence for the link and stores it in
    the link, in place.  The computation itself is the parameter [scorer];
    each invocation is recorded in [scored]. *)
Definition build_confidence (scorer : session -> LinkedProducts.t -> option Q)
    (link : LinkedProducts.t) : M LinkedProducts.t :=
  fun s =>
    assign (fun l => LinkedProducts.mk (LinkedProducts.id l)
                       (LinkedProducts.amz_listing_id l)
                       (LinkedProducts.vnd_listing_id l) (scorer s link))
           link
           (set_scored (scored s ++ [LinkedProducts.id link]) s).

Definition link_products_ids (scorer : session -> LinkedProducts.t -> option Q)
    (amz_listing_id vnd_listing_id : Z) : M LinkedProducts.t :=
  link <- get_or_create LinkedProducts.t [Link_amz_listing_id amz_listing_id;
                                          Link_vnd_listing_id vnd_listing_id] ;;
  match LinkedProducts.confidence link with
  | None => flush ;;; build_confidence scorer link
  | Some _ => ret link
  end.

Definition unlink_products (amz_listing_id vnd_listing_id : Z) : M unit :=
  link <- first LinkedProducts.t
            (filter_by LinkedProducts.t [Link_amz_listing_id amz_listing_id;
                                         Link_vnd_listing_id vnd_listing_id]) ;;
  match link with
  | Some l => delete l
  | None => ret tt
  end.

(** ** Watches *)

(** Modelled from the spec: [Operation.param_string.contains('repeat')].  The
    column [param_string] and the property [params] that fills it belong to
    module [database]; by the spec the test selects the operations whose
    params contain the key. *)
Definition params_contain (key : string) (o : Operation.t) : bool :=
  existsb (fun kv => (fst kv =? key)%string) (Operation.params o).

Definition is_watch_of (listing_id : Z) (o : Operation.t) : bool :=
  col_is Z.eqb (Operation.listing_id o) listing_id
  && (col_is String.eqb (Operation.operation o) "UpdateAmazonListing"
      && params_contain "repeat" o).

Definition get_watch (listing_id : Z) : M (option Operation.t) :=
  first Operation.t (is_watch_of listing_id).

(** [func.now()]: the store's clock *)
Definition func_now : M Z := fun s => (Val (clock s), s).

Definition watch_params (time : string) : list (string * param) :=
  [("log", PBool true); ("repeat", PStr time)].

Definition set_watch (listing_id : Z) (time : option string) : M unit :=
  watch <- get_watch listing_id ;;
  match time with
  | None =>
      match watch with
      | Some w => delete w
      | None => ret tt
      end
  | Some time =>
      let watch :=
        match watch with
        | Some w => w
        | None => Operation.UpdateAmazonListing listing_id 5
        end in
      watch <- assign (fun o => Operation.mk (Operation.id o) (Operation.operation o)
                                  (Operation.listing_id o) (Operation.priority o)
                                  (watch_params time) (Operation.scheduled o))
                      watch ;;
      now <- func_now ;;
      watch <- assign (fun o => Operation.mk (Operation.id o) (Operation.operation o)
                                  (Operation.listing_id o) (Operation.priority o)
                                  (Operation.params o) (Some now))
                      watch ;;
      _ <- add watch ;;
      ret tt
  end.

(** ** Categories *)

(** Modelled from the spec: [AmazonCategory.product_groups.contains(group)],
    a column of module [database]: the category's set of product groups
    contains the group. *)
Definition groups_contain (group : string) (c : AmazonCategory.t) : bool :=
  existsb (String.eqb group) (AmazonCategory.product_groups c).

(** The string held by an optional string that passed the truth test. *)
Definition str_of (o : option string) : string :=
  match o with
  | Some v => v
  | None => ""
  end.

Definition get_or_create_category (productcategory_id product_group : option string)
    : M AmazonCategory.t :=
  category <-
    (if truthy productcategory_id then
       category <- get_or_create AmazonCategory.t
                     [Category_product_category_id (str_of productcategory_id)] ;;
       category <- assign (fun c =>
                             AmazonCategory.mk (AmazonCategory.id c)
                               (AmazonCategory.product_category_id c)
                               (if truthy (AmazonCategory.name category)
                                then AmazonCategory.name category
                                else productcategory_id)
                               (AmazonCategory.product_groups c))
                          category ;;
       ret (Some category)
     else if truthy product_group then
       first AmazonCategory.t (groups_contain (str_of product_group))
     else ret None) ;;
  match category with
  | Some c => ret c
  | None => get_or_create AmazonCategory.t [Category_name "Unknown"]
  end.

(** ** ProductHistoryStats *)

(** The session is the state of [M]; the object keeps the listing. *)
Record ProductHistoryStats := mkStats { _listing_id : Z }.

Definition _sale_slope : Q := - (3 # 10).

(** [datetime.timestamp()]: seconds since the epoch *)
Definition posix (t : Z) : Q := t # 1000000.

(** Python's [x / y] on numbers *)
Definition truediv (x y : Q) : outcome Q :=
  if Qeq_bool y 0 then Raise ZeroDivisionError else Val (x / y)%Q.

Definition Qltb (x y : Q) : bool := negb (Qle_bool y x).

(** [(rank2 - rank1) / (t2.timestamp() - t1.timestamp())] *)
Definition slope (rank1 t1 rank2 t2 : Z) : outcome Q :=
  truediv (inject_Z (rank2 - rank1)) (posix t2 - posix t1)%Q.

(** [order_by]: rows with equal keys keep their table order. *)
Fixpoint insert_by {A} (before : A -> A -> bool) (x : A) (l : list A) : list A :=
  match l with
  | [] => [x]
  | y :: l' => if before x y then x :: y :: l' else y :: insert_by before x l'
  end.

Definition order_by {A} (before : A -> A -> bool) (l : list A) : list A :=
  fold_right (insert_by before) [] l.

Definition timestamp_asc (a b : AmzProductHistory.t) : bool :=
  AmzProductHistory.timestamp a <=? AmzProductHistory.timestamp b.

Definition timestamp_desc (a b : AmzProductHistory.t) : bool :=
  AmzProductHistory.timestamp b <=? AmzProductHistory.timestamp a.

Definition of_listing (listing_id : Z) (h : AmzProductHistory.t) : bool :=
  AmzProductHistory.amz_listing_id h =? listing_id.

(** A row of a query for the columns [timestamp] and [salesrank]. *)
Record point := mkPoint { timestamp : Z; salesrank : Z }.

Definition to_point (h : AmzProductHistory.t) : point :=
  mkPoint (AmzProductHistory.timestamp h) (AmzProductHistory.salesrank h).

(** [func.avg]: NULL over no rows *)
Definition func_avg (l : list Z) : option Q :=
  match l with
  | [] => None
  | _ => Some (Qdiv (inject_Z (fold_right Z.add 0 l))
                    (inject_Z (Z.of_nat (Datatypes.length l))))
  end.

Definition avg_salesrank (self : ProductHistoryStats) : M (option Q) :=
  fun s =>
    (Val (func_avg (map AmzProductHistory.salesrank
                        (filter (of_listing (_listing_id self)) (history s)))), s).

Definition day : Z := 86400 * 1000000.

(** [datetime.date.today()], as a day number *)
Definition date_today : M Z := fun s => (Val (clock s / day), s).

Definition avg_90day_salesrank (self : ProductHistoryStats) : M (option Q) :=
  today <- date_today ;;
  let start_date := today - 90 in
  fun s =>
    (Val (func_avg
            (map AmzProductHistory.salesrank
                 (filter (fun h => of_listing (_listing_id self) h
                                   && (start_date * day <? AmzProductHistory.timestamp h))
                         (history s)))), s).

(** The loop of [sales_points] over the rows still to visit. *)
Fixpoint sales_loop (points : list point) (last_point : option point)
    (sales : list point) : outcome (list point) :=
  match points with
  | [] => Val sales
  | point :: rest =>
      match last_point with
      | Some last =>
          match slope (salesrank last) (timestamp last)
                      (salesrank point) (timestamp point) with
          | Val sl =>
              sales_loop rest (Some point)
                         (if Qltb sl _sale_slope then sales ++ [point] else sales)
          | Raise e => Raise e
          end
      | None => sales_loop rest (Some point) sales
      end
  end.

Definition sales_points (self : ProductHistoryStats) : M (list point) :=
  fun s =>
    (sales_loop
       (map to_point
            (order_by timestamp_asc
                      (filter (of_listing (_listing_id self)) (history s))))
       None [], s).

Definition print (line : string) : M unit :=
  fun s => (Val tt, set_stdout (stdout s ++ [line]) s).

(** ['%s' % n] for an integer *)
Definition str (n : Z) : string := NilZero.string_of_int (Z.to_int n).

(** The predecessor [is_sale] looks up. *)
Definition prior_of (obs : AmzProductHistory.t) : M (option AmzProductHistory.t) :=
  fun s =>
    (Val (hd_error
            (order_by timestamp_desc
               (filter (fun h => of_listing (AmzProductHistory.amz_listing_id obs) h
                                 && (AmzProductHistory.id h <? AmzProductHistory.id obs))
                       (history s)))), s).

Definition is_sale (self : ProductHistoryStats) (obs : AmzProductHistory.t) : M bool :=
  prior <- prior_of obs ;;
  match prior with
  | Some prior =>
      match slope (AmzProductHistory.salesrank prior) (AmzProductHistory.timestamp prior)
                  (AmzProductHistory.salesrank obs) (AmzProductHistory.timestamp obs) with
      | Val sl => ret (Qltb sl _sale_slope)
      | Raise ZeroDivisionError =>
          print ("Zero division error: obs.id=" ++ str (AmzProductHistory.id obs)
                 ++ ", prior.id=" ++ str (AmzProductHistory.id prior)) ;;;
          ret false
      | Raise e => raise e
      end
  | None => ret false
  end.

(** ** The sale detector as the specification words it *)

(** The consecutive pairs of a sequence of observations. *)
Fixpoint pairs (l : list point) : list (point * point) :=
  match l with
  | p :: (q :: _) as rest => (p, q) :: pairs rest
  | _ => []
  end.

(** Specification: [slope = (salesrank2 - salesrank1) / (timestamp2 -
    timestamp1 in seconds)], for two observations at different times. *)
Definition slope_of (p q : point) : Q :=
  (inject_Z (salesrank q - salesrank p) / (posix (timestamp q) - posix (timestamp p)))%Q.


(** The rows [sales_points] iterates over. *)
Definition observations (self : ProductHistoryStats) (s : session) : list point :=
  map to_point
      (order_by timestamp_asc (filter (of_listing (_listing_id self)) (history s))).

Definition earlier (p q : point) : Prop := timestamp p < timestamp q.

(** Two consecutive observations, at different times or at the same time. *)
Definition distinct_times (pq : point * point) : Prop :=
  timestamp (fst pq) <> timestamp (snd pq).

Definition same_time (pq : point * point) : Prop :=
  timestamp (fst pq) = timestamp (snd pq).

(** The timestamps of the observations of the listing. *)
Definition times (self : ProductHistoryStats) (s : session) : list Z :=
  map AmzProductHistory.timestamp
      (filter (of_listing (_listing_id self)) (history s)).

(** A session that holds only a history for listing 7, from rows
    [(id, timestamp, salesrank)]. *)
Definition history_7 (rows : list (Z * Z * Z)) : session :=
  set_history
    (map (fun r => AmzProductHistory.mk (fst (fst r)) 7 (snd (fst r)) (snd r)) rows)
    empty_session.

(** The rows [is_sale] picks the predecessor of [obs] from. *)
Definition candidates (obs : AmzProductHistory.t) (s : session)
    : list AmzProductHistory.t :=
  filter (fun h => of_listing (AmzProductHistory.amz_listing_id obs) h
                   && (AmzProductHistory.id h <? AmzProductHistory.id obs))
         (history s).





(** Every row of a table has its primary key, as in any flushed store. *)
Definition keyed {T} `{Table T} (l : list T) : bool :=
  forallb (fun r => match pk r with Some _ => true | None => false end) l.

(** [link_products_ids] called once more for each scorer of a list. *)
Fixpoint link_again (scorers : list (session -> LinkedProducts.t -> option Q))
    (amz_listing_id vnd_listing_id : Z) : M (list LinkedProducts.t) :=
  match scorers with
  | [] => ret []
  | scorer :: rest =>
      link <- link_products_ids scorer amz_listing_id vnd_listing_id ;;
      more <- link_again rest amz_listing_id vnd_listing_id ;;
      ret (link :: more)
  end.

(** The keyword arguments [link_products_ids] passes. *)
Definition link_kwargs (amz vnd : Z) : list (@Col LinkedProducts.t _ _) :=
  [Link_amz_listing_id amz; Link_vnd_listing_id vnd].

(** The keyword arguments the helpers pass for lists and categories. *)
Definition list_kwargs (name : string) : list (@Col List.t _ _) := [List_name name].

Definition by_category_id (pid : string) : list (@Col AmazonCategory.t _ _) :=
  [Category_product_category_id pid].

Definition by_name (name : string) : list (@Col AmazonCategory.t _ _) :=
  [Category_name name].

(** The watches of a listing: the operations [get_watch] selects from. *)
Definition watches (listing_id : Z) (s : session) : list Operation.t :=
  filter (is_watch_of listing_id) (operations s).

(** An operation after [set_watch] wrote its params and its schedule. *)
Definition armed (w : Operation.t) (time : string) (now : Z) : Operation.t :=
  Operation.mk (Operation.id w) (Operation.operation w) (Operation.listing_id w)
               (Operation.priority w) (watch_params time) (Some now).

(** The primary key of the list of that name: of the row that carries the
    name, or the key a new row is going to get. *)
Definition list_key (list_name : string) (s : session) : option Z :=
  match find (filter_by List.t (list_kwargs list_name)) (lists s) with
  | Some l => List.id l
  | None => Some (fresh_pk (lists s))
  end.

(** The memberships of the list with that key. *)
Definition members_in (key : option Z) (ms : list ListMembership.t)
    : list ListMembership.t :=
  filter (fun m => opt_eqb Z.eqb (ListMembership.list_id m) key) ms.


(** The filter both helpers apply to memberships. *)
Definition member_kwargs (key : option Z) (listing_id : Z)
    : list (@Col ListMembership.t _ _) :=
  [Membership_list_id key; Membership_listing_id listing_id].

(** The keyword arguments [add_ids_to_list] passes: the list itself and the
    listing id. *)
Definition relation_kwargs (add_list : List.t) (listing_id : Z)
    : list (@Col ListMembership.t _ _) :=
  [Membership_list add_list; Membership_listing_id listing_id].

(** What [get_or_create] of a membership does to the table. *)
Definition add_row (key : option Z) (listing_id : Z) (ms : list ListMembership.t)
    : list ListMembership.t :=
  match find (filter_by ListMembership.t (member_kwargs key listing_id)) ms with
  | Some _ => ms
  | None => ms ++ [ListMembership.mk (Some (fresh_pk ms)) key (Some listing_id)]
  end.

(** What one round of the loop of [remove_ids_from_list] does to the table. *)
Definition del_row (key : option Z) (listing_id : Z) (ms : list ListMembership.t)
    : list ListMembership.t :=
  match find (filter_by ListMembership.t (member_kwargs key listing_id)) ms with
  | Some m =>
      match pk m with
      | Some i => filter (fun r => negb (opt_eqb Z.eqb (pk r) (Some i))) ms
      | None => ms
      end
  | None => ms
  end.

(** The membership of a listing in the list with that key. *)
Definition is_member (key : option Z) (listing_id : Z) (m : ListMembership.t) : bool :=
  filter_by ListMembership.t (member_kwargs key listing_id) m.


(** The invariants of the membership table: every row has its primary key, no
    two rows share one, and the list with that key holds a listing at most
    once. *)
Definition tidy (key : option Z) (ms : list ListMembership.t) : Prop :=
  keyed ms = true
  /\ NoDup (map pk ms)
  /\ NoDup (map ListMembership.listing_id (members_in key ms)).



(** What the loops of [add_ids_to_list] and [remove_ids_from_list] do to the
    membership table, for any list of ids. *)
Definition add_rows (key : option Z) (ids : list Z) (ms : list ListMembership.t)
    : list ListMembership.t :=
  fold_left (fun ms x => add_row key x ms) ids ms.

Definition del_rows (key : option Z) (ids : list Z) (ms : list ListMembership.t)
    : list ListMembership.t :=
  fold_left (fun ms x => del_row key x ms) ids ms.

(** A table without the memberships of the given listings in the list. *)
Definition without_all (key : option Z) (ids : list Z) (ms : list ListMembership.t)
    : list ListMembership.t :=
  filter (fun m => negb (existsb (fun x => is_member key x m) ids)) ms.

(** The invariants of the operations table: every row has its primary key, no
    two rows share one, and a listing has at most one watch. *)
Definition watch_store_ok (s : session) : Prop :=
  keyed (operations s) = true
  /\ NoDup (map pk (operations s))
  /\ forall listing_id, (Datatypes.length (watches listing_id s) <= 1)%nat.


(** [link_products_ids] called [n] times in a row with one scorer. *)
Fixpoint link_times (n : nat) (scorer : session -> LinkedProducts.t -> option Q)
    (amz_listing_id vnd_listing_id : Z) : M unit :=
  match n with
  | O => ret tt
  | S n' =>
      _ <- link_products_ids scorer amz_listing_id vnd_listing_id ;;
      link_times n' scorer amz_listing_id vnd_listing_id
  end.

(** * Properties *)

Local Close Scope string_scope.

(** ** Ordering *)

Section OrderBy.
Context {A : Type} (before : A -> A -> bool).
Hypothesis before_total : forall a b, before a b = false -> before b a = true.
Hypothesis before_trans :
  forall a b c, before a b = true -> before b c = true -> before a c = true.

Lemma insert_by_perm (x : A) (l : list A) :
  Permutation (insert_by before x l) (x :: l).
Proof.
  induction l as [|y l IH]; cbn; [reflexivity|].
  destruct (before x y); [reflexivity|].
  rewrite IH. apply perm_swap.
Qed.

Lemma order_by_perm (l : list A) : Permutation (order_by before l) l.
Proof.
  induction l as [|x l IH]; cbn; [constructor|].
  rewrite insert_by_perm. now constructor.
Qed.

Lemma insert_by_sorted (x : A) (l : list A) :
  StronglySorted (fun a b => before a b = true) l ->
  StronglySorted (fun a b => before a b = true) (insert_by before x l).
Proof.
  induction 1 as [|y l Hl IH Hy]; cbn.
  - repeat constructor.
  - destruct (before x y) eqn:E.
    + constructor; [now constructor|].
      constructor; [exact E|].
      eapply Forall_impl; [|exact Hy]. intros z Hz. eauto.
    + constructor; [exact IH|].
      eapply Permutation_Forall; [symmetry; apply insert_by_perm|].
      constructor; auto.
Qed.

Lemma order_by_sorted (l : list A) :
  StronglySorted (fun a b => before a b = true) (order_by before l).
Proof.
  induction l as [|x l IH]; cbn; [constructor|].
  now apply insert_by_sorted.
Qed.


End OrderBy.

Lemma timestamp_asc_total a b : timestamp_asc a b = false -> timestamp_asc b a = true.
Proof. unfold timestamp_asc. lia. Qed.

Lemma timestamp_asc_trans a b c :
  timestamp_asc a b = true -> timestamp_asc b c = true -> timestamp_asc a c = true.
Proof. unfold timestamp_asc. lia. Qed.



Lemma StronglySorted_impl {A} (R R' : A -> A -> Prop) (l : list A) :
  (forall a b, R a b -> R' a b) -> StronglySorted R l -> StronglySorted R' l.
Proof.
  intros HR. induction 1 as [|x l Hl IH Hx]; constructor; auto.
  eapply Forall_impl; [|exact Hx]. auto.
Qed.

Lemma StronglySorted_map {A B} (f : A -> B) (R : B -> B -> Prop) (l : list A) :
  StronglySorted (fun a b => R (f a) (f b)) l -> StronglySorted R (map f l).
Proof.
  induction 1 as [|x l Hl IH Hx]; cbn; constructor; auto.
  rewrite Forall_map. exact Hx.
Qed.

Lemma sorted_nodup_strict (l : list point) :
  StronglySorted (fun p q => timestamp p <= timestamp q) l ->
  NoDup (map timestamp l) ->
  StronglySorted earlier l.
Proof.
  induction 1 as [|x l Hl IH Hx]; cbn; intros Hnd; [constructor|].
  inversion Hnd as [|? ? Hnotin Hnd']; subst.
  constructor; [auto|].
  rewrite Forall_forall in *. intros y Hy.
  specialize (Hx y Hy). unfold earlier.
  assert (timestamp x <> timestamp y).
  { intros E. apply Hnotin. rewrite E. now apply in_map. }
  lia.
Qed.

Lemma observations_perm self s :
  Permutation (observations self s)
              (map to_point (filter (of_listing (_listing_id self)) (history s))).
Proof. unfold observations. apply Permutation_map, order_by_perm. Qed.

Lemma observations_sorted self s :
  StronglySorted (fun p q => timestamp p <= timestamp q) (observations self s).
Proof.
  unfold observations. apply StronglySorted_map.
  eapply StronglySorted_impl.
  2: apply (order_by_sorted timestamp_asc timestamp_asc_total timestamp_asc_trans).
  intros a b. unfold timestamp_asc, to_point. cbn. lia.
Qed.

(** ** Slopes *)


Lemma posix_delta_zero (t1 t2 : Z) :
  Qeq_bool (posix t2 - posix t1) 0 = true <-> t1 = t2.
Proof.
  rewrite Qeq_bool_iff. unfold posix, Qeq, Qminus, Qplus, Qopp. cbn. lia.
Qed.

Lemma slope_defined (p q : point) :
  timestamp p <> timestamp q ->
  slope (salesrank p) (timestamp p) (salesrank q) (timestamp q) = Val (slope_of p q).
Proof.
  intros Hne. unfold slope, truediv, slope_of.
  destruct (Qeq_bool (posix (timestamp q) - posix (timestamp p)) 0) eqn:E;
    [|reflexivity].
  apply posix_delta_zero in E. contradiction.
Qed.

Lemma slope_undefined (r1 r2 t : Z) : slope r1 t r2 t = Raise ZeroDivisionError.
Proof.
  unfold slope, truediv.
  now rewrite (proj2 (posix_delta_zero t t) eq_refl).
Qed.

(** ** The loop of sales_points *)




Lemma sales_loop_raises (points : list point) :
  forall last sales,
    Exists same_time (pairs (last :: points)) ->
    sales_loop points (Some last) sales = Raise ZeroDivisionError.
Proof.
  induction points as [|q rest IH]; intros last sales Hex.
  - cbn in Hex. inversion Hex.
  - cbn [pairs] in Hex. cbn [sales_loop].
    destruct (Z.eq_dec (timestamp last) (timestamp q)) as [E|Hne].
    + rewrite E. now rewrite slope_undefined.
    + rewrite slope_defined by exact Hne.
      apply IH. inversion Hex as [? ? Hhere|? ? Hlater]; subst; [|exact Hlater].
      contradiction.
Qed.

Lemma sales_loop_from_start_raises (points : list point) :
  Exists same_time (pairs points) ->
  sales_loop points None [] = Raise ZeroDivisionError.
Proof.
  destruct points as [|p rest]; intros Hex; [inversion Hex|].
  cbn [sales_loop]. now apply sales_loop_raises.
Qed.







Lemma observations_times self s :
  Permutation (map timestamp (observations self s)) (times self s).
Proof.
  etransitivity.
  - apply Permutation_map, observations_perm.
  - unfold times. rewrite map_map. cbn. reflexivity.
Qed.

Lemma observations_strict self s :
  NoDup (times self s) -> StronglySorted earlier (observations self s).
Proof.
  intros Hnd. apply sorted_nodup_strict; [apply observations_sorted|].
  eapply Permutation_NoDup; [|exact Hnd].
  symmetry. apply observations_times.
Qed.

Lemma sorted_distinct_strict (l : list point) :
  StronglySorted (fun p q => timestamp p <= timestamp q) l ->
  Forall distinct_times (pairs l) ->
  StronglySorted earlier l.
Proof.
  induction 1 as [|p l Hl IH Hp]; intros Hd; [constructor|].
  destruct l as [|q l]; [repeat constructor|].
  cbn [pairs] in Hd. inversion Hd as [|? ? Hpq Hrest]; subst.
  constructor; [auto|].
  inversion Hp as [|? ? Hle _]; subst.
  inversion Hl as [|? ? _ Hq]; subst.
  unfold distinct_times in Hpq. cbn in Hpq.
  constructor; [unfold earlier; lia|].
  rewrite Forall_forall in *. intros r Hr.
  specialize (Hq r Hr). unfold earlier. lia.
Qed.

Lemma strict_nodup (l : list point) :
  StronglySorted earlier l -> NoDup (map timestamp l).
Proof.
  induction 1 as [|p l Hl IH Hp]; cbn; constructor; [|exact IH].
  rewrite in_map_iff. intros [q [E Hq]].
  rewrite Forall_forall in Hp. specialize (Hp q Hq).
  unfold earlier in Hp. lia.
Qed.

(** In timestamp order, a repeated timestamp shows as two neighbours. *)
Lemma repeated_time_adjacent self s :
  ~ NoDup (times self s) -> Exists same_time (pairs (observations self s)).
Proof.
  intros Hdup.
  destruct (Forall_Exists_dec distinct_times
              (fun pq => match Z.eq_dec (timestamp (fst pq)) (timestamp (snd pq)) with
                         | left E => right (fun H => H E)
                         | right N => left N
                         end)
              (pairs (observations self s))) as [Hall|Hex].
  - exfalso. apply Hdup.
    eapply Permutation_NoDup; [apply observations_times|].
    apply strict_nodup, sorted_distinct_strict; [apply observations_sorted|exact Hall].
  - eapply Exists_impl; [|exact Hex].
    intros pq Hn. unfold same_time, distinct_times in *.
    destruct (Z.eq_dec (timestamp (fst pq)) (timestamp (snd pq))); tauto.
Qed.

(** ** sales_points *)






(** ** is_sale *)




(** ** Averages *)

Lemma filter_andb {A} (f g : A -> bool) (l : list A) :
  filter (fun x => f x && g x) l = filter f (filter g l).
Proof.
  induction l as [|x l IH]; cbn; [reflexivity|].
  destruct (f x) eqn:Ef, (g x) eqn:Eg; cbn; rewrite ?Ef, IH; reflexivity.
Qed.







(** ** get_or_create *)

Section GetOrCreate.
Context {dtype : Type} `{Columns dtype}.

Lemma holds_construct_other (c : Col) (kwargs : list Col) (r : dtype) :
  ~ In (column c) (map column kwargs) ->
  holds c (fold_left (fun r c' => setattr c' r) kwargs r) = holds c r.
Proof.
  revert r. induction kwargs as [|c' rest IH]; intros r Hnotin; [reflexivity|].
  cbn in *. rewrite IH by tauto.
  apply holds_setattr_other. intros E. apply Hnotin. now left.
Qed.

Lemma filter_by_fold (kwargs : list Col) (r : dtype) :
  NoDup (map column kwargs) ->
  forallb (fun c => holds c (fold_left (fun r c' => setattr c' r) kwargs r)) kwargs
  = true.
Proof.
  revert r. induction kwargs as [|c rest IH]; intros r Hnd; [reflexivity|].
  cbn in *. inversion Hnd as [|? ? Hnotin Hnd']; subst.
  rewrite IH by exact Hnd'.
  rewrite holds_construct_other by exact Hnotin.
  now rewrite holds_setattr.
Qed.

(** The object the constructor builds passes the filter on the same keyword
    arguments. *)
Lemma filter_by_construct (kwargs : list Col) :
  NoDup (map column kwargs) ->
  filter_by dtype kwargs (construct dtype kwargs) = true.
Proof. intros Hnd. unfold filter_by, construct. now apply filter_by_fold. Qed.

Lemma filter_by_set_pk (kwargs : list Col) (i : option Z) (r : dtype) :
  filter_by dtype kwargs (set_pk i r) = filter_by dtype kwargs r.
Proof.
  unfold filter_by. induction kwargs as [|c rest IH]; cbn; [reflexivity|].
  now rewrite holds_set_pk, IH.
Qed.

Lemma find_app_last {A} (f : A -> bool) (l : list A) (x : A) :
  find f l = None -> f x = true -> find f (l ++ [x]) = Some x.
Proof.
  intros Hnone Hx. induction l as [|y l IH]; cbn in *.
  - now rewrite Hx.
  - destruct (f y); [discriminate|auto].
Qed.

Lemma filter_none {A} (f : A -> bool) (l : list A) :
  find f l = None -> filter f l = [].
Proof.
  induction l as [|y l IH]; cbn; [reflexivity|].
  destruct (f y); [discriminate|auto].
Qed.

(** What one call does, by whether a row passes the filter. *)
Lemma get_or_create_found (kwargs : list Col) (s : session) (o : dtype) :
  find (filter_by dtype kwargs) (rows s) = Some o ->
  get_or_create dtype kwargs s = (Val o, s).
Proof. intros E. unfold get_or_create, bind, first. now rewrite E. Qed.

Lemma pk_construct (kwargs : list Col) : pk (construct dtype kwargs) = None.
Proof.
  unfold construct. rewrite <- pk_blank. generalize blank.
  induction kwargs as [|c rest IH]; intros r; cbn; [reflexivity|].
  now rewrite IH, pk_setattr.
Qed.

Lemma get_or_create_new (kwargs : list Col) (s : session) :
  find (filter_by dtype kwargs) (rows s) = None ->
  get_or_create dtype kwargs s
  = (Val (set_pk (Some (fresh_pk (rows s))) (construct dtype kwargs)),
     set_rows (rows s ++ [set_pk (Some (fresh_pk (rows s))) (construct dtype kwargs)]) s).
Proof.
  intros E. unfold get_or_create, bind, first, add. now rewrite E, pk_construct.
Qed.
End GetOrCreate.

(** C3: two calls of [get_or_create] with the same keyword arguments return
    the same record, and the second call creates nothing; when no row passed
    the filter before, the two calls together add exactly one row, the record
    returned, which is then the only row that passes the filter. *)
Theorem get_or_create_idempotent (dtype : Type) `{Columns dtype}
    (kwargs : list Col) (s : session) :
  NoDup (map column kwargs) ->
  exists obj s1,
    get_or_create dtype kwargs s = (Val obj, s1)
    /\ get_or_create dtype kwargs s1 = (Val obj, s1)
    /\ filter_by dtype kwargs obj = true
    /\ In obj (rows s1)
    /\ (find (filter_by dtype kwargs) (rows s) = None ->
        rows s1 = rows s ++ [obj]
        /\ filter (filter_by dtype kwargs) (rows s1) = [obj])
    /\ (find (filter_by dtype kwargs) (rows s) <> None -> s1 = s).
Proof.
  intros Hnd.
  destruct (find (filter_by dtype kwargs) (rows s)) as [o|] eqn:E.
  - exists o, s. rewrite (get_or_create_found kwargs s o E).
    apply find_some in E. destruct E as [Hin Hf].
    repeat split; try assumption; discriminate.
  - set (obj := set_pk (Some (fresh_pk (rows s))) (construct dtype kwargs)).
    assert (Hobj : filter_by dtype kwargs obj = true).
    { unfold obj. rewrite filter_by_set_pk. now apply filter_by_construct. }
    exists obj, (set_rows (rows s ++ [obj]) s).
    rewrite (get_or_create_new kwargs s E). fold obj.
    rewrite rows_set_rows.
    split; [reflexivity|].
    split.
    { apply get_or_create_found. rewrite rows_set_rows.
      now apply find_app_last. }
    split; [exact Hobj|].
    split; [apply in_or_app; right; now left|].
    split; [|congruence].
    intros _. split; [reflexivity|].
    rewrite filter_app, (filter_none _ _ E). cbn. now rewrite Hobj.
Qed.

Lemma get_or_create_idempotent_witness :
  NoDup (map (@column List.t _ _) [List_name "wishlist"%string])
  /\ exists obj s1,
      get_or_create List.t [List_name "wishlist"%string] empty_session = (Val obj, s1)
      /\ get_or_create List.t [List_name "wishlist"%string] s1 = (Val obj, s1)
      /\ lists s1 = [obj].
Proof.
  assert (Hnd : NoDup (map (@column List.t _ _) [List_name "wishlist"%string])).
  { repeat constructor. cbn. tauto. }
  split; [exact Hnd|].
  destruct (@get_or_create_idempotent List.t List_table List_columns
              [List_name "wishlist"%string] empty_session Hnd)
    as [obj [s1 [H1 [H2 [_ [_ [Hnew _]]]]]]].
  exists obj, s1. split; [exact H1|]. split; [exact H2|].
  exact (proj1 (Hnew eq_refl)).
Defined.

(** ** Objects shared with the session *)

Lemma opt_eqb_Some (x : option Z) (i : Z) :
  opt_eqb Z.eqb x (Some i) = true <-> x = Some i.
Proof.
  destruct x as [j|]; cbn; [|split; discriminate].
  rewrite Z.eqb_eq. split; congruence.
Qed.

Lemma keyed_pk {T} `{Table T} (l : list T) (r : T) :
  keyed l = true -> In r l -> exists i, pk r = Some i.
Proof.
  unfold keyed. rewrite forallb_forall. intros Hk Hin.
  specialize (Hk r Hin). destruct (pk r) as [i|]; [eauto|discriminate].
Qed.

(** After an assignment to the first row that passes a filter, the first row
    that passes is the assigned one, as long as it still passes. *)
Lemma find_replace {T} `{Table T} (f : T -> bool) (l : list T) (o o' : T) (i : Z) :
  find f l = Some o -> pk o = Some i -> f o' = true ->
  find f (map (fun r => if opt_eqb Z.eqb (pk r) (Some i) then o' else r) l) = Some o'.
Proof.
  intros Hfind Hpk Ho'. induction l as [|r l IH]; cbn in *; [discriminate|].
  destruct (opt_eqb Z.eqb (pk r) (Some i)) eqn:E.
  - now rewrite Ho'.
  - destruct (f r) eqn:Hr.
    + injection Hfind as ->. apply opt_eqb_Some in Hpk. congruence.
    + auto.
Qed.

(** ** link_products_ids *)

(** A link whose confidence is set is returned as it is, and nothing else
    happens. *)
Lemma link_products_ids_lookup scorer (amz vnd : Z) (s : session)
    (link : LinkedProducts.t) (V : Q) :
  find (filter_by LinkedProducts.t (link_kwargs amz vnd)) (links s) = Some link ->
  LinkedProducts.confidence link = Some V ->
  link_products_ids scorer amz vnd s = (Val link, s).
Proof.
  intros Hfind HV. unfold link_products_ids, bind.
  fold (link_kwargs amz vnd).
  rewrite (get_or_create_found (dtype := LinkedProducts.t) (link_kwargs amz vnd) s link Hfind).
  now rewrite HV.
Qed.

(** The link a call returns is the one the next call finds. *)
Lemma link_products_ids_finds scorer (amz vnd : Z) (s s1 : session)
    (link : LinkedProducts.t) :
  keyed (links s) = true ->
  link_products_ids scorer amz vnd s = (Val link, s1) ->
  find (filter_by LinkedProducts.t (link_kwargs amz vnd)) (links s1) = Some link.
Proof.
  intros Hk. unfold link_products_ids, bind. fold (link_kwargs amz vnd).
  destruct (find (filter_by LinkedProducts.t (link_kwargs amz vnd)) (links s))
    as [o|] eqn:Hfind.
  - rewrite (get_or_create_found (dtype := LinkedProducts.t) (link_kwargs amz vnd) s o Hfind).
    destruct (LinkedProducts.confidence o) as [c|] eqn:Hc.
    + intros E. injection E as <- <-. exact Hfind.
    + pose proof (find_some _ _ Hfind) as [Hin Hf].
      destruct (keyed_pk (links s) o Hk Hin) as [i Hi].
      pose proof Hi as Hi'. cbn in Hi'.
      unfold flush, ret, build_confidence, assign. cbn [pk LinkedProducts_table].
      rewrite Hi'. intros E. injection E as <- <-. cbn [rows LinkedProducts_table set_rows links set_links set_scored].
      apply (find_replace (filter_by LinkedProducts.t (link_kwargs amz vnd))
               (links s) o _ i Hfind Hi).
      exact Hf.
  - rewrite (get_or_create_new (dtype := LinkedProducts.t) (link_kwargs amz vnd) s Hfind).
    cbn [construct link_kwargs fold_left setattr LinkedProducts_columns blank set_pk
         LinkedProducts_table LinkedProducts.confidence LinkedProducts.id
         LinkedProducts.amz_listing_id LinkedProducts.vnd_listing_id].
    unfold flush, ret, build_confidence, assign.
    cbn [pk LinkedProducts_table LinkedProducts.id rows set_rows links set_links set_scored
         LinkedProducts.amz_listing_id LinkedProducts.vnd_listing_id].
    intros E. injection E as <- <-.
    cbn [rows LinkedProducts_table set_rows links set_links set_scored].
    match goal with
    | |- find ?f (map _ (?l ++ [?o])) = Some ?o' =>
        refine (find_replace f (l ++ [o]) o o' (fresh_pk (links s)) _ _ _)
    end.
    + apply find_app_last; [exact Hfind|]. cbn. now rewrite !Z.eqb_refl.
    + reflexivity.
    + cbn. now rewrite !Z.eqb_refl.
Qed.

(** C4: once a call of [link_products_ids] has returned the link with
    confidence V, every later call for the same pair returns that link, with
    confidence V, whatever its scorer would compute, and leaves the session,
    with its record of the scorer's invocations, as it was. *)
Theorem link_confidence_computed_once scorer (amz vnd : Z) (s s1 : session)
    (link : LinkedProducts.t) (V : Q) :
  keyed (links s) = true ->
  link_products_ids scorer amz vnd s = (Val link, s1) ->
  LinkedProducts.confidence link = Some V ->
  forall scorers,
    link_again scorers amz vnd s1 = (Val (map (fun _ => link) scorers), s1)
    /\ forall scorer', In scorer' scorers ->
         link_products_ids scorer' amz vnd s1 = (Val link, s1).
Proof.
  intros Hk Hcall HV scorers.
  pose proof (link_products_ids_finds scorer amz vnd s s1 link Hk Hcall) as Hfind.
  assert (Hone : forall scorer', link_products_ids scorer' amz vnd s1 = (Val link, s1)).
  { intros scorer'. exact (link_products_ids_lookup scorer' amz vnd s1 link V Hfind HV). }
  split; [|intros; apply Hone].
  induction scorers as [|f rest IH]; [reflexivity|].
  cbn [link_again map]. unfold bind. rewrite Hone, IH. reflexivity.
Qed.

Lemma link_confidence_computed_once_witness :
  keyed (links empty_session) = true
  /\ link_again [fun _ _ => Some (1 # 10); fun _ _ => None] 1 2
       (snd (link_products_ids (fun _ _ => Some (9 # 10)) 1 2 empty_session))
     = (Val [LinkedProducts.mk (Some 1) (Some 1) (Some 2) (Some (9 # 10));
             LinkedProducts.mk (Some 1) (Some 1) (Some 2) (Some (9 # 10))],
        snd (link_products_ids (fun _ _ => Some (9 # 10)) 1 2 empty_session)).
Proof.
  split; [reflexivity|].
  exact (proj1 (link_confidence_computed_once
                  (fun _ _ => Some (9 # 10)) 1 2 empty_session
                  (snd (link_products_ids (fun _ _ => Some (9 # 10)) 1 2 empty_session))
                  (LinkedProducts.mk (Some 1) (Some 1) (Some 2) (Some (9 # 10)))
                  (9 # 10) eq_refl eq_refl eq_refl
                  [fun _ _ => Some (1 # 10); fun _ _ => None])).
Defined.

(** ** add_ids_to_list and remove_ids_from_list *)

(** C10: with no listing ids, [add_ids_to_list] raises IndexError at
    [listing_ids[0]], after its [get_or_create] fetched the list or added a
    new one to the session; [remove_ids_from_list] with no ids returns and
    changes nothing. *)
Theorem add_ids_to_list_empty (list_name : string) (s : session) :
  exists add_list s1,
    get_or_create List.t (list_kwargs list_name) s = (Val add_list, s1)
    /\ add_ids_to_list [] list_name s = (Raise IndexError, s1)
    /\ In add_list (lists s1)
    /\ List.name add_list = Some list_name
    /\ (find (filter_by List.t (list_kwargs list_name)) (lists s) = None ->
        lists s1 = lists s ++ [add_list])
    /\ remove_ids_from_list [] list_name s = (Val tt, s).
Proof.
  assert (Hrm : remove_ids_from_list [] list_name s = (Val tt, s)).
  { unfold remove_ids_from_list, bind, first.
    destruct (find _ _); reflexivity. }
  unfold add_ids_to_list, bind. fold (list_kwargs list_name).
  destruct (find (filter_by List.t (list_kwargs list_name)) (lists s)) as [o|] eqn:E.
  - exists o, s.
    rewrite (get_or_create_found (dtype := List.t) (list_kwargs list_name) s o E).
    apply find_some in E. destruct E as [Hin Hf].
    repeat split; try assumption; try discriminate.
    cbn in Hf. destruct (List.name o) as [n|]; [|discriminate].
    cbn in Hf. rewrite andb_true_r in Hf. apply String.eqb_eq in Hf. now subst.
  - eexists _, _.
    rewrite (get_or_create_new (dtype := List.t) (list_kwargs list_name) s E).
    split; [reflexivity|].
    split; [reflexivity|].
    split; [cbn; apply in_or_app; right; now left|].
    split; [reflexivity|].
    split; [intros _; reflexivity|exact Hrm].
Qed.

Lemma add_ids_to_list_empty_witness :
  find (filter_by List.t (list_kwargs "wishlist"%string)) (lists empty_session) = None
  /\ exists add_list s1,
      add_ids_to_list [] "wishlist"%string empty_session = (Raise IndexError, s1)
      /\ lists s1 = lists empty_session ++ [add_list].
Proof.
  split; [reflexivity|].
  destruct (add_ids_to_list_empty "wishlist"%string empty_session)
    as [add_list [s1 [_ [Hraise [_ [_ [Hnew _]]]]]]].
  exists add_list, s1. split; [exact Hraise|exact (Hnew eq_refl)].
Defined.

(** ** get_or_create_category *)

Lemma truthy_Some (v : string) : truthy (Some v) = true <-> v <> ""%string.
Proof.
  cbn. rewrite negb_true_iff. split.
  - intros E ->. discriminate.
  - intros Hne. destruct (String.eqb_spec v ""); [contradiction|reflexivity].
Qed.

Lemma col_is_string (column : option string) (v : string) :
  col_is String.eqb column v = true <-> column = Some v.
Proof.
  destruct column as [a|]; cbn; [|split; discriminate].
  rewrite String.eqb_eq. split; congruence.
Qed.

(** The fallback of [get_or_create_category]. *)
Lemma unknown_category (s : session) :
  exists c s1,
    get_or_create AmazonCategory.t (by_name "Unknown") s = (Val c, s1)
    /\ AmazonCategory.name c = Some "Unknown"%string
    /\ (categories s1 = categories s
        \/ categories s1
           = categories s
             ++ [AmazonCategory.mk (Some (fresh_pk (categories s))) None
                                   (Some "Unknown"%string) []]).
Proof.
  destruct (find (filter_by AmazonCategory.t (by_name "Unknown")) (categories s))
    as [o|] eqn:E.
  - exists o, s.
    rewrite (get_or_create_found (dtype := AmazonCategory.t) _ s o E).
    apply find_some in E. destruct E as [_ Hf].
    cbn in Hf. rewrite andb_true_r in Hf. apply col_is_string in Hf. auto.
  - eexists _, _.
    rewrite (get_or_create_new (dtype := AmazonCategory.t) _ s E).
    split; [reflexivity|]. split; [reflexivity|]. right. reflexivity.
Qed.

(** C6, as the source has it: [get_or_create_category] always returns a
    category.  Without id and group it is the category named Unknown; with a
    group that no category contains it is Unknown again, and no category of
    the store contains the group afterwards; with a non-empty category id it
    is a category with that id, whose name is the id when the category is new
    or had no name, and the name it had otherwise. *)
Theorem get_or_create_category_fallback (s : session) :
  (forall pid group, exists c s1, get_or_create_category pid group s = (Val c, s1))
  /\ (exists c s1,
        get_or_create_category None None s = (Val c, s1)
        /\ AmazonCategory.name c = Some "Unknown"%string)
  /\ (forall group,
        (forall c, In c (categories s) -> groups_contain group c = false) ->
        exists c s1,
          get_or_create_category None (Some group) s = (Val c, s1)
          /\ AmazonCategory.name c = Some "Unknown"%string
          /\ (forall c', In c' (categories s1) -> groups_contain group c' = false))
  /\ (forall pid,
        pid <> ""%string ->
        exists c s1,
          get_or_create_category (Some pid) None s = (Val c, s1)
          /\ AmazonCategory.product_category_id c = Some pid
          /\ match find (filter_by AmazonCategory.t (by_category_id pid))
                        (categories s) with
             | Some old =>
                 AmazonCategory.name c
                 = if truthy (AmazonCategory.name old)
                   then AmazonCategory.name old else Some pid
             | None => AmazonCategory.name c = Some pid
             end).
Proof.
  assert (Hfallback : forall s0 : session,
             exists c s1,
               (c0 <- ret (@None AmazonCategory.t) ;;
                match c0 with
                | Some c => ret c
                | None => get_or_create AmazonCategory.t (by_name "Unknown")
                end) s0 = (Val c, s1)
               /\ AmazonCategory.name c = Some "Unknown"%string
               /\ (categories s1 = categories s0
                   \/ categories s1
                      = categories s0
                        ++ [AmazonCategory.mk (Some (fresh_pk (categories s0))) None
                                              (Some "Unknown"%string) []])).
  { intros s0. destruct (unknown_category s0) as [c [s1 [H1 [H2 H3]]]].
    exists c, s1. unfold bind, ret. auto. }
  assert (Hgroup : forall group,
             (forall c, In c (categories s) -> groups_contain group c = false) ->
             exists c s1,
               get_or_create_category None (Some group) s = (Val c, s1)
               /\ AmazonCategory.name c = Some "Unknown"%string
               /\ (forall c', In c' (categories s1) -> groups_contain group c' = false)).
  { intros group Hno.
    assert (Hkeep : forall s1,
               categories s1 = categories s
               \/ categories s1
                  = categories s
                    ++ [AmazonCategory.mk (Some (fresh_pk (categories s))) None
                                          (Some "Unknown"%string) []] ->
               forall c', In c' (categories s1) -> groups_contain group c' = false).
    { intros s1 [E|E] c' Hin; rewrite E in Hin; [auto|].
      apply in_app_or in Hin. destruct Hin as [Hin|[<-|[]]]; [auto|reflexivity]. }
    unfold get_or_create_category. cbn [truthy].
    destruct (negb (group =? "")%string).
    - assert (Hfind : find (groups_contain group) (categories s) = None).
      { destruct (find (groups_contain group) (categories s)) as [c|] eqn:E;
          [|reflexivity].
        apply find_some in E. destruct E as [Hin Hc].
        rewrite (Hno c Hin) in Hc. discriminate. }
      destruct (Hfallback s) as [c [s1 [H1 [H2 H3]]]].
      exists c, s1. split; [|split; [exact H2|now apply Hkeep]].
      unfold bind, first in *. cbn [str_of rows AmazonCategory_table].
      rewrite Hfind. exact H1.
    - destruct (Hfallback s) as [c [s1 [H1 [H2 H3]]]].
      exists c, s1. split; [exact H1|split; [exact H2|now apply Hkeep]]. }
  assert (Hid : forall pid group,
             pid <> ""%string ->
             exists c s1,
               get_or_create_category (Some pid) group s = (Val c, s1)
               /\ AmazonCategory.product_category_id c = Some pid
               /\ match find (filter_by AmazonCategory.t (by_category_id pid))
                             (categories s) with
                  | Some old =>
                      AmazonCategory.name c
                      = if truthy (AmazonCategory.name old)
                        then AmazonCategory.name old else Some pid
                  | None => AmazonCategory.name c = Some pid
                  end).
  { intros pid group Hne.
    unfold get_or_create_category.
    rewrite (proj2 (truthy_Some pid) Hne). cbn [str_of].
    fold (by_category_id pid). unfold bind at 1 2.
    destruct (find (filter_by AmazonCategory.t (by_category_id pid)) (categories s))
      as [old|] eqn:E.
    - rewrite (get_or_create_found (dtype := AmazonCategory.t) _ s old E).
      unfold bind, assign, ret.
      apply find_some in E. destruct E as [_ Hf].
      cbn in Hf. rewrite andb_true_r in Hf. apply col_is_string in Hf.
      destruct (pk old); eexists _, _; (split; [reflexivity|]); cbn; auto.
    - rewrite (get_or_create_new (dtype := AmazonCategory.t) _ s E).
      unfold bind, assign, ret. cbn.
      eexists _, _. split; [reflexivity|]. cbn. auto. }
  split.
  { intros [pid|] [group|].
    - destruct (String.eqb_spec pid "") as [->|Hne].
      + unfold get_or_create_category. cbn [truthy String.eqb negb].
        destruct (negb (group =? "")%string).
        * unfold bind, first.
          destruct (find _ _) as [c|]; [eexists _, _; reflexivity|].
          destruct (unknown_category s) as [c [s1 [H1 _]]]. exists c, s1. exact H1.
        * destruct (Hfallback s) as [c [s1 [H1 _]]]. exists c, s1. exact H1.
      + destruct (Hid pid (Some group) Hne) as [c [s1 [H1 _]]]. eauto.
    - destruct (String.eqb_spec pid "") as [->|Hne].
      + destruct (Hfallback s) as [c [s1 [H1 _]]]. exists c, s1. exact H1.
      + destruct (Hid pid None Hne) as [c [s1 [H1 _]]]. eauto.
    - unfold get_or_create_category. cbn [truthy].
      destruct (negb (group =? "")%string).
      + unfold bind, first.
        destruct (find _ _) as [c|]; [eexists _, _; reflexivity|].
        destruct (unknown_category s) as [c [s1 [H1 _]]]. exists c, s1. exact H1.
      + destruct (Hfallback s) as [c [s1 [H1 _]]]. exists c, s1. exact H1.
    - destruct (Hfallback s) as [c [s1 [H1 _]]]. exists c, s1. exact H1. }
  split.
  { destruct (Hfallback s) as [c [s1 [H1 [H2 _]]]]. exists c, s1. auto. }
  split; [exact Hgroup|].
  intros pid Hne. exact (Hid pid None Hne).
Qed.

Lemma get_or_create_category_fallback_witness :
  "123"%string <> ""%string
  /\ exists c s1,
      get_or_create_category (Some "123"%string) None empty_session = (Val c, s1)
      /\ AmazonCategory.product_category_id c = Some "123"%string
      /\ AmazonCategory.name c = Some "123"%string.
Proof.
  assert (Hne : "123"%string <> ""%string) by discriminate.
  split; [exact Hne|].
  exact (proj2 (proj2 (proj2 (get_or_create_category_fallback empty_session)))
               "123"%string Hne).
Defined.

(** Where C6 as stated fails: the empty string is an id that
    [if productcategory_id] rejects, and the category returned is Unknown,
    not one with that id. *)
Lemma get_or_create_category_empty_id :
  fst (get_or_create_category (Some ""%string) None empty_session)
  = Val (AmazonCategory.mk (Some 1) None (Some "Unknown"%string) []).
Proof. reflexivity. Qed.

(** ** set_watch *)

Lemma find_filter {A} (f : A -> bool) (l : list A) :
  find f l = hd_error (filter f l).
Proof.
  induction l as [|x l IH]; cbn; [reflexivity|].
  destruct (f x); [reflexivity|exact IH].
Qed.

Lemma max_pk_bound {T} `{Table T} (l : list T) (r : T) (i : Z) :
  In r l -> pk r = Some i -> i <= max_pk l.
Proof.
  unfold max_pk. induction l as [|x l IH]; cbn [In fold_right]; [contradiction|].
  intros [->|Hin] Hi.
  - rewrite Hi. lia.
  - specialize (IH Hin Hi). destruct (pk x); lia.
Qed.

Lemma fresh_pk_fresh {T} `{Table T} (l : list T) :
  ~ In (Some (fresh_pk l)) (map pk l).
Proof.
  rewrite in_map_iff. intros [r [Hr Hin]].
  pose proof (max_pk_bound l r _ Hin Hr). unfold fresh_pk in *. lia.
Qed.

Lemma unique_pk {T} `{Table T} (l : list T) (r w : T) (i : Z) :
  NoDup (map pk l) -> In r l -> In w l -> pk r = Some i -> pk w = Some i -> r = w.
Proof.
  induction l as [|x l IH]; cbn; [contradiction|].
  intros Hnd Hr Hw Hri Hwi. inversion Hnd as [|? ? Hnotin Hnd']; subst.
  destruct Hr as [->|Hr], Hw as [->|Hw]; auto.
  - exfalso. apply Hnotin. rewrite Hri, <- Hwi. now apply in_map.
  - exfalso. apply Hnotin. rewrite Hwi, <- Hri. now apply in_map.
Qed.

Lemma set_watch_new (listing_id : Z) (time : string) (s : session) :
  find (is_watch_of listing_id) (operations s) = None ->
  set_watch listing_id (Some time) s
  = (Val tt,
     set_operations
       (operations s
        ++ [armed (set_pk (Some (fresh_pk (operations s)))
                          (Operation.UpdateAmazonListing listing_id 5))
                  time (clock s)]) s).
Proof.
  intros E. unfold set_watch, get_watch, bind, first.
  cbn [rows Operation_table]. rewrite E. reflexivity.
Qed.

Lemma set_watch_rearm (listing_id : Z) (time : string) (s : session)
    (w : Operation.t) (i : Z) :
  find (is_watch_of listing_id) (operations s) = Some w ->
  pk w = Some i ->
  set_watch listing_id (Some time) s
  = (Val tt,
     set_operations
       (map (fun r => if opt_eqb Z.eqb (pk r) (Some i) then armed w time (clock s) else r)
            (operations s)) s).
Proof.
  intros E Hi. unfold set_watch, get_watch, bind, first.
  cbn [rows Operation_table]. rewrite E.
  unfold assign, func_now, add, ret.
  cbn [pk Operation_table Operation.id] in *. rewrite Hi.
  cbn [rows set_rows Operation_table operations set_operations clock Operation.id].
  f_equal. unfold set_operations. cbn [listings lists memberships links
    operations categories history clock scored stdout]. f_equal.
  rewrite map_map. apply map_ext. intros r. unfold armed. rewrite Hi.
  destruct (opt_eqb Z.eqb (Operation.id r) (Some i)) eqn:Er; cbn.
  - rewrite Z.eqb_refl. reflexivity.
  - rewrite Er. reflexivity.
Qed.

Lemma is_watch_of_armed (listing_id : Z) (w : Operation.t) (time : string) (now : Z) :
  is_watch_of listing_id w = true ->
  is_watch_of listing_id (armed w time now) = true.
Proof.
  unfold is_watch_of. rewrite !andb_true_iff. intros [Hl [Ho _]].
  cbn [armed Operation.listing_id Operation.operation]. auto.
Qed.

Lemma is_watch_of_new (listing_id : Z) (k : option Z) (time : string) (now : Z) :
  is_watch_of listing_id
              (armed (set_pk k (Operation.UpdateAmazonListing listing_id 5)) time now)
  = true.
Proof.
  unfold is_watch_of, col_is.
  cbn [armed set_pk Operation_table Operation.UpdateAmazonListing
       Operation.listing_id Operation.operation].
  now rewrite Z.eqb_refl.
Qed.

Lemma filter_replace {A} (P : A -> bool) (hit : A -> bool) (a : A) (l : list A) :
  (forall r, In r l -> hit r = P r) ->
  P a = true ->
  filter P (map (fun r => if hit r then a else r) l) = map (fun _ => a) (filter P l).
Proof.
  intros Hhit Ha. induction l as [|r l IH]; cbn; [reflexivity|].
  rewrite (Hhit r (or_introl eq_refl)).
  destruct (P r) eqn:Er; cbn; rewrite ?Ha, ?Er, IH; auto.
  - intros r' Hr'. apply Hhit. now right.
  - intros r' Hr'. apply Hhit. now right.
Qed.

Lemma set_watch_arm (listing_id : Z) (time : string) (s : session) :
  keyed (operations s) = true ->
  NoDup (map pk (operations s)) ->
  (Datatypes.length (watches listing_id s) <= 1)%nat ->
  exists w s1,
    set_watch listing_id (Some time) s = (Val tt, s1)
    /\ watches listing_id s1 = [w]
    /\ Operation.params w = watch_params time
    /\ Operation.scheduled w = Some (clock s)
    /\ (watches listing_id s = [] -> Operation.priority w = Some 5)
    /\ (forall w0, watches listing_id s = [w0] ->
                   Operation.priority w = Operation.priority w0
                   /\ Operation.id w = Operation.id w0)
    /\ keyed (operations s1) = true
    /\ NoDup (map pk (operations s1)).
Proof.
  intros Hk Hnd Hlen.
  pose proof (find_filter (is_watch_of listing_id) (operations s)) as Hfind.
  fold (watches listing_id s) in Hfind.
  destruct (watches listing_id s) as [|w0 [|w1 rest]] eqn:Ew;
    [| |cbn in Hlen; lia]; cbn [hd_error] in Hfind.
  - rewrite (set_watch_new listing_id time s Hfind).
    eexists _, _. split; [reflexivity|].
    split.
    { unfold watches in *. cbn [operations set_operations].
      rewrite filter_app, Ew. cbn [filter app].
      now rewrite is_watch_of_new. }
    split; [reflexivity|]. split; [reflexivity|]. split; [reflexivity|].
    split; [discriminate|].
    cbn [operations set_operations]. split.
    + unfold keyed in *. rewrite forallb_app, Hk. reflexivity.
    + rewrite map_app. cbn [map].
      eapply Permutation_NoDup; [apply Permutation_cons_append|].
      constructor; [|exact Hnd].
      apply (fresh_pk_fresh (operations s)).
  - pose proof (find_some _ _ Hfind) as [Hin Hw0].
    destruct (keyed_pk (operations s) w0 Hk Hin) as [i Hi].
    rewrite (set_watch_rearm listing_id time s w0 i Hfind Hi).
    pose proof Hi as Hi'. cbn in Hi'.
    assert (Hhit : forall r, In r (operations s) ->
                     opt_eqb Z.eqb (pk r) (Some i) = is_watch_of listing_id r).
    { intros r Hr. destruct (is_watch_of listing_id r) eqn:Er.
      - assert (Hrw : In r (watches listing_id s))
          by (apply filter_In; auto).
        rewrite Ew in Hrw. destruct Hrw as [<-|[]]. now apply opt_eqb_Some.
      - destruct (opt_eqb Z.eqb (pk r) (Some i)) eqn:Ei; [|reflexivity].
        apply opt_eqb_Some in Ei.
        rewrite (unique_pk (operations s) r w0 i Hnd Hr Hin Ei Hi) in Er.
        congruence. }
    eexists _, _. split; [reflexivity|].
    split.
    { unfold watches in *. cbn [operations set_operations].
      rewrite (filter_replace _ _ _ _ Hhit (is_watch_of_armed _ _ _ _ Hw0)).
      now rewrite Ew. }
    split; [reflexivity|]. split; [reflexivity|].
    split; [discriminate|].
    split; [intros w E; injection E as <-; split; reflexivity|].
    cbn [operations set_operations]. split.
    + unfold keyed in *. rewrite forallb_forall in *. intros r Hr.
      apply in_map_iff in Hr. destruct Hr as [r0 [<- Hr0]].
      destruct (opt_eqb Z.eqb (pk r0) (Some i)); [cbn; now rewrite Hi'|auto].
    + rewrite map_map.
      erewrite map_ext_in; [exact Hnd|].
      intros r Hr. cbn beta.
      destruct (opt_eqb Z.eqb (pk r) (Some i)) eqn:Ei; [|reflexivity].
      apply opt_eqb_Some in Ei. cbn in *. now rewrite Hi'.
Qed.

Lemma set_watch_clear_absent (listing_id : Z) (s : session) :
  watches listing_id s = [] -> set_watch listing_id None s = (Val tt, s).
Proof.
  intros Ew.
  pose proof (find_filter (is_watch_of listing_id) (operations s)) as Hfind.
  fold (watches listing_id s) in Hfind. rewrite Ew in Hfind.
  unfold set_watch, get_watch, bind, first. cbn [rows Operation_table].
  now rewrite Hfind.
Qed.

Lemma set_watch_clear_present (listing_id : Z) (s : session) (w : Operation.t) :
  keyed (operations s) = true ->
  watches listing_id s = [w] ->
  exists s1,
    set_watch listing_id None s = (Val tt, s1)
    /\ watches listing_id s1 = []
    /\ ~ In w (operations s1)
    /\ (forall r, In r (operations s1) -> In r (operations s)).
Proof.
  intros Hk Ew.
  pose proof (find_filter (is_watch_of listing_id) (operations s)) as Hfind.
  fold (watches listing_id s) in Hfind. rewrite Ew in Hfind. cbn in Hfind.
  pose proof (find_some _ _ Hfind) as [Hin Hw].
  destruct (keyed_pk (operations s) w Hk Hin) as [i Hi].
  unfold set_watch, get_watch, bind, first. cbn [rows Operation_table].
  rewrite Hfind. unfold delete. rewrite Hi.
  eexists. split; [reflexivity|].
  cbn [rows set_rows Operation_table operations set_operations]. unfold watches.
  cbn [operations set_operations].
  split; [|split].
  - destruct (filter (is_watch_of listing_id) _) as [|r rest] eqn:E; [reflexivity|].
    assert (Hr : In r (r :: rest)) by now left.
    rewrite <- E in Hr. apply filter_In in Hr. destruct Hr as [Hr Hwr].
    apply filter_In in Hr. destruct Hr as [Hr Hne].
    assert (Hrw : In r (watches listing_id s)) by (apply filter_In; auto).
    rewrite Ew in Hrw. destruct Hrw as [<-|[]].
    apply negb_true_iff in Hne. rewrite (proj2 (opt_eqb_Some _ _) Hi) in Hne.
    discriminate.
  - intros Hw'. apply filter_In in Hw'. destruct Hw' as [_ Hne].
    apply negb_true_iff in Hne. rewrite (proj2 (opt_eqb_Some _ _) Hi) in Hne.
    discriminate.
  - intros r Hr. apply filter_In in Hr. tauto.
Qed.

(** C7: in a store with at most one watch for the listing, [set_watch] with
    an interval, called twice, leaves exactly one watch for the listing; its
    params are [{log: true, repeat: interval}], its schedule is the store's
    clock at the second call, and its priority is 5 when the first call
    created it (the priority it had otherwise).  [set_watch] with no interval
    deletes the watch when there is one and changes nothing when there is
    none. *)
Theorem set_watch_rearms :
  (forall (listing_id : Z) (time : string) (later : Z) (s : session),
      keyed (operations s) = true ->
      NoDup (map pk (operations s)) ->
      (Datatypes.length (watches listing_id s) <= 1)%nat ->
      exists s1 s2 w,
        set_watch listing_id (Some time) s = (Val tt, s1)
        /\ set_watch listing_id (Some time) (set_clock later s1) = (Val tt, s2)
        /\ watches listing_id s2 = [w]
        /\ Operation.params w = watch_params time
        /\ Operation.scheduled w = Some later
        /\ (watches listing_id s = [] -> Operation.priority w = Some 5)
        /\ (forall w0, watches listing_id s = [w0] ->
                       Operation.priority w = Operation.priority w0))
  /\ (forall (listing_id : Z) (s : session) (w : Operation.t),
        keyed (operations s) = true ->
        watches listing_id s = [w] ->
        exists s1,
          set_watch listing_id None s = (Val tt, s1)
          /\ watches listing_id s1 = []
          /\ ~ In w (operations s1)
          /\ (forall r, In r (operations s1) -> In r (operations s)))
  /\ (forall (listing_id : Z) (s : session),
        watches listing_id s = [] ->
        set_watch listing_id None s = (Val tt, s)).
Proof.
  split; [|split; [exact set_watch_clear_present|exact set_watch_clear_absent]].
  intros listing_id time later s Hk Hnd Hlen.
  destruct (set_watch_arm listing_id time s Hk Hnd Hlen)
    as [w1 [s1 [Hcall1 [Hw1 [_ [_ [Hnew [Hold [Hk1 Hnd1]]]]]]]]].
  assert (Hw1' : watches listing_id (set_clock later s1) = [w1]) by exact Hw1.
  assert (Hlen1 : (Datatypes.length (watches listing_id (set_clock later s1)) <= 1)%nat)
    by (rewrite Hw1'; cbn; lia).
  destruct (set_watch_arm listing_id time (set_clock later s1) Hk1 Hnd1 Hlen1)
    as [w2 [s2 [Hcall2 [Hw2 [Hp [Hs [_ [Hsame _]]]]]]]].
  destruct (Hsame w1 Hw1') as [Hprio _].
  exists s1, s2, w2.
  repeat split; try assumption.
  - intros E. rewrite Hprio. now apply Hnew.
  - intros w0 E. rewrite Hprio. now apply Hold.
Qed.

Lemma set_watch_rearms_witness :
  (keyed (operations empty_session) = true
   /\ NoDup (map pk (operations empty_session))
   /\ (Datatypes.length (watches 3 empty_session) <= 1)%nat)
  /\ exists s1 s2 w,
      set_watch 3 (Some "1d"%string) empty_session = (Val tt, s1)
      /\ set_watch 3 (Some "1d"%string) (set_clock 60000000 s1) = (Val tt, s2)
      /\ watches 3 s2 = [w]
      /\ Operation.params w = watch_params "1d"%string
      /\ Operation.scheduled w = Some 60000000.
Proof.
  assert (Hk : keyed (operations empty_session) = true) by reflexivity.
  assert (Hnd : NoDup (map pk (operations empty_session))) by constructor.
  assert (Hlen : (Datatypes.length (watches 3 empty_session) <= 1)%nat)
    by (cbn; lia).
  split; [auto|].
  destruct (proj1 set_watch_rearms 3 "1d"%string 60000000 empty_session Hk Hnd Hlen)
    as [s1 [s2 [w [H1 [H2 [H3 [H4 [H5 _]]]]]]]].
  exists s1, s2, w. auto.
Defined.

(** ** Memberships *)

Lemma opt_eqb_eq (x y : option Z) : opt_eqb Z.eqb x y = true <-> x = y.
Proof.
  destruct x as [i|], y as [j|]; cbn; try (split; congruence).
  rewrite Z.eqb_eq. split; congruence.
Qed.

Lemma member_filter_iff (key : option Z) (x : Z) (m : ListMembership.t) :
  filter_by ListMembership.t (member_kwargs key x) m = true
  <-> ListMembership.list_id m = key /\ ListMembership.listing_id m = Some x.
Proof.
  unfold filter_by, member_kwargs. cbn [forallb holds ListMembership_columns].
  rewrite andb_true_r, andb_true_iff, opt_eqb_eq.
  unfold col_is. destruct (ListMembership.listing_id m) as [y|].
  - rewrite Z.eqb_eq. split; intros [H1 H2]; split; congruence.
  - split; intros [H1 H2]; discriminate.
Qed.

Lemma members_in_In (key : option Z) (ms : list ListMembership.t) (m : ListMembership.t) :
  In m (members_in key ms) <-> In m ms /\ ListMembership.list_id m = key.
Proof. unfold members_in. now rewrite filter_In, opt_eqb_eq. Qed.

Lemma members_in_app (key : option Z) (l1 l2 : list ListMembership.t) :
  members_in key (l1 ++ l2) = members_in key l1 ++ members_in key l2.
Proof. apply filter_app. Qed.

Lemma NoDup_map_inj {A B} (f : A -> B) (l : list A) (x y : A) :
  NoDup (map f l) -> In x l -> In y l -> f x = f y -> x = y.
Proof.
  induction l as [|z l IH]; cbn; [contradiction|].
  intros Hnd Hx Hy E. inversion Hnd as [|? ? Hnotin Hnd']; subst.
  destruct Hx as [->|Hx], Hy as [->|Hy]; auto.
  - exfalso. apply Hnotin. rewrite E. now apply in_map.
  - exfalso. apply Hnotin. rewrite <- E. now apply in_map.
Qed.

Lemma NoDup_map_filter {A B} (f : A -> B) (g : A -> bool) (l : list A) :
  NoDup (map f l) -> NoDup (map f (filter g l)).
Proof.
  induction l as [|z l IH]; cbn; [auto|].
  intros Hnd. inversion Hnd as [|? ? Hnotin Hnd']; subst.
  destruct (g z); cbn; [|auto].
  constructor; [|auto].
  intros Hin. apply Hnotin. apply in_map_iff in Hin.
  destruct Hin as [y [E Hy]]. apply filter_In in Hy.
  rewrite <- E. apply in_map. tauto.
Qed.

Lemma filter_comm {A} (f g : A -> bool) (l : list A) :
  filter f (filter g l) = filter g (filter f l).
Proof.
  induction l as [|z l IH]; cbn; [reflexivity|].
  destruct (f z) eqn:Ef, (g z) eqn:Eg; cbn; rewrite ?Ef, ?Eg, IH; reflexivity.
Qed.

Lemma is_member_iff (key : option Z) (x : Z) (m : ListMembership.t) :
  is_member key x m = true
  <-> ListMembership.list_id m = key /\ ListMembership.listing_id m = Some x.
Proof. apply member_filter_iff. Qed.

Lemma filter_all {A} (f : A -> bool) (l : list A) :
  (forall x, In x l -> f x = true) -> filter f l = l.
Proof.
  induction l as [|x l IH]; cbn; intros Hall; [reflexivity|].
  rewrite (Hall x (or_introl eq_refl)), IH; [reflexivity|].
  intros y Hy. apply Hall. now right.
Qed.

Lemma tidy_filter (key : option Z) (g : ListMembership.t -> bool)
    (ms : list ListMembership.t) :
  tidy key ms -> tidy key (filter g ms).
Proof.
  intros [Hk [Hpk Hnd]]. split; [|split].
  - unfold keyed in *. rewrite forallb_forall in *. intros r Hr.
    apply filter_In in Hr. apply Hk. tauto.
  - now apply NoDup_map_filter.
  - unfold members_in. rewrite filter_comm. now apply NoDup_map_filter.
Qed.

Lemma add_row_tidy (key : option Z) (x : Z) (ms : list ListMembership.t) :
  tidy key ms -> tidy key (add_row key x ms).
Proof.
  intros [Hk [Hpk Hnd]]. unfold add_row.
  destruct (find (filter_by ListMembership.t (member_kwargs key x)) ms) as [m|] eqn:E;
    [now repeat split|].
  assert (Hnew : members_in key
                   [ListMembership.mk (Some (fresh_pk ms)) key (Some x)]
                 = [ListMembership.mk (Some (fresh_pk ms)) key (Some x)]).
  { unfold members_in. cbn [filter ListMembership.list_id].
    now rewrite (proj2 (opt_eqb_eq key key) eq_refl). }
  split; [|split].
  - unfold keyed in *. rewrite forallb_app, Hk. reflexivity.
  - rewrite map_app. cbn [map].
    eapply Permutation_NoDup; [apply Permutation_cons_append|].
    constructor; [|exact Hpk]. apply (fresh_pk_fresh ms).
  - rewrite members_in_app, Hnew, map_app. cbn [map ListMembership.listing_id].
    eapply Permutation_NoDup; [apply Permutation_cons_append|].
    constructor; [|exact Hnd].
    intros Hin. apply in_map_iff in Hin. destruct Hin as [m [Hm Hin]].
    apply members_in_In in Hin. destruct Hin as [Hin Hkey].
    apply (find_none _ _ E) in Hin.
    rewrite (proj2 (member_filter_iff key x m) (conj Hkey Hm)) in Hin. discriminate.
Qed.

(** One round of the removal loop takes out the membership of the listing,
    and nothing else. *)
Lemma del_row_filter (key : option Z) (x : Z) (ms : list ListMembership.t) :
  tidy key ms ->
  del_row key x ms = filter (fun m => negb (is_member key x m)) ms.
Proof.
  intros [Hk [Hpk Hnd]]. unfold del_row.
  destruct (find (filter_by ListMembership.t (member_kwargs key x)) ms)
    as [m0|] eqn:E;
    change (filter_by ListMembership.t (member_kwargs key x))
      with (is_member key x) in E.
  - pose proof (find_some _ _ E) as [Hin0 Hm0].
    destruct (keyed_pk ms m0 Hk Hin0) as [i Hi]. rewrite Hi.
    apply filter_ext_in. intros r Hr. f_equal.
    destruct (is_member key x r) eqn:Er.
    + apply opt_eqb_Some. rewrite <- Hi. f_equal.
      apply is_member_iff in Er. apply is_member_iff in Hm0.
      apply (NoDup_map_inj ListMembership.listing_id (members_in key ms)); auto.
      * apply members_in_In. tauto.
      * apply members_in_In. tauto.
      * destruct Er, Hm0. congruence.
    + destruct (opt_eqb Z.eqb (pk r) (Some i)) eqn:Ei; [|reflexivity].
      apply opt_eqb_Some in Ei.
      rewrite (unique_pk ms r m0 i Hpk Hr Hin0 Ei Hi) in Er. congruence.
  - symmetry. apply filter_all. intros r Hr.
    now rewrite (find_none _ _ E r Hr).
Qed.





Lemma add_member_effect (add_list : List.t) (x : Z) (s : session) :
  exists m s',
    get_or_create ListMembership.t (relation_kwargs add_list x) s = (Val m, s')
    /\ lists s' = lists s
    /\ listings s' = listings s
    /\ memberships s' = add_row (List.id add_list) x (memberships s).
Proof.
  unfold add_row.
  change (filter_by ListMembership.t (member_kwargs (List.id add_list) x))
    with (filter_by ListMembership.t (relation_kwargs add_list x)).
  destruct (find (filter_by ListMembership.t (relation_kwargs add_list x))
                 (memberships s)) as [m|] eqn:E.
  - exists m, s.
    now rewrite (get_or_create_found (dtype := ListMembership.t) _ s m E).
  - eexists _, _.
    rewrite (get_or_create_new (dtype := ListMembership.t) _ s E).
    split; [reflexivity|]. repeat split; reflexivity.
Qed.



Lemma remove_round_effect (key : option Z) (x : Z) (s : session) :
  exists s',
    (membership <- first ListMembership.t
                     (filter_by ListMembership.t
                                [Membership_list_id key; Membership_listing_id x]) ;;
     match membership with
     | Some m => delete m
     | None => ret tt
     end) s = (Val tt, s')
    /\ lists s' = lists s
    /\ memberships s' = del_row key x (memberships s).
Proof.
  unfold bind, first, del_row. fold (member_kwargs key x).
  cbn [rows ListMembership_table].
  destruct (find (filter_by ListMembership.t (member_kwargs key x)) (memberships s))
    as [m|]; [|exists s; auto].
  unfold delete. destruct (pk m) as [i|]; [|exists s; auto].
  eexists. split; [reflexivity|]. split; reflexivity.
Qed.



Lemma remove_ids_from_list_no_ids (list_name : string) (s : session) :
  remove_ids_from_list [] list_name s = (Val tt, s).
Proof.
  unfold remove_ids_from_list, bind, first. destruct (find _ _); reflexivity.
Qed.



(** * Further properties *)

(** ** The flag test *)






(** ** What the statistics depend on *)

Lemma filter_drop {A} (f : A -> bool) (l1 l2 : list A) (x : A) :
  f x = false -> filter f (l1 ++ x :: l2) = filter f (l1 ++ l2).
Proof. intros E. rewrite !filter_app. cbn. now rewrite E. Qed.

(** X2: The statistics of a listing do not see the observations of the others:
    taking one away changes no result of [sales_points], [avg_salesrank] or
    [avg_90day_salesrank]. *)
Theorem stats_ignore_other_listings (self : ProductHistoryStats) (s : session)
    (before after : list AmzProductHistory.t) (o : AmzProductHistory.t) :
  history s = before ++ o :: after ->
  AmzProductHistory.amz_listing_id o <> _listing_id self ->
  fst (sales_points self s)
  = fst (sales_points self (set_history (before ++ after) s))
  /\ fst (avg_salesrank self s)
     = fst (avg_salesrank self (set_history (before ++ after) s))
  /\ fst (avg_90day_salesrank self s)
     = fst (avg_90day_salesrank self (set_history (before ++ after) s)).
Proof.
  intros Hh Hl.
  assert (Ho : of_listing (_listing_id self) o = false).
  { unfold of_listing. now apply Z.eqb_neq. }
  split; [|split].
  - unfold sales_points. cbn [fst history set_history].
    now rewrite Hh, (filter_drop _ _ _ _ Ho).
  - unfold avg_salesrank. cbn [fst history set_history].
    now rewrite Hh, (filter_drop _ _ _ _ Ho).
  - unfold avg_90day_salesrank, bind, date_today. cbn [fst history set_history clock set_history].
    rewrite Hh. rewrite (filter_drop _ before after o); [reflexivity|].
    now rewrite Ho.
Qed.

Lemma stats_ignore_other_listings_witness :
  fst (sales_points (mkStats 7)
         (set_history [AmzProductHistory.mk 1 7 0 1000;
                       AmzProductHistory.mk 2 8 500000 3;
                       AmzProductHistory.mk 3 7 1000000 1] empty_session))
  = fst (sales_points (mkStats 7)
           (set_history ([AmzProductHistory.mk 1 7 0 1000]
                         ++ [AmzProductHistory.mk 3 7 1000000 1])
                        (set_history [AmzProductHistory.mk 1 7 0 1000;
                                      AmzProductHistory.mk 2 8 500000 3;
                                      AmzProductHistory.mk 3 7 1000000 1]
                                     empty_session))).
Proof.
  refine (proj1 (stats_ignore_other_listings (mkStats 7)
                   (set_history [AmzProductHistory.mk 1 7 0 1000;
                                 AmzProductHistory.mk 2 8 500000 3;
                                 AmzProductHistory.mk 3 7 1000000 1] empty_session)
                   [AmzProductHistory.mk 1 7 0 1000]
                   [AmzProductHistory.mk 3 7 1000000 1]
                   (AmzProductHistory.mk 2 8 500000 3) eq_refl _)).
  cbn. lia.
Defined.

(** X3: The verdict of [is_sale] on an observation depends on the earlier
    observations of its listing only: an observation of another listing, or
    one whose id is not below, changes nothing. *)
Theorem is_sale_ignores_later (self : ProductHistoryStats)
    (obs : AmzProductHistory.t) (s : session)
    (before after : list AmzProductHistory.t) (o : AmzProductHistory.t) :
  history s = before ++ o :: after ->
  AmzProductHistory.amz_listing_id o <> AmzProductHistory.amz_listing_id obs
  \/ AmzProductHistory.id obs <= AmzProductHistory.id o ->
  fst (is_sale self obs s)
  = fst (is_sale self obs (set_history (before ++ after) s)).
Proof.
  intros Hh Ho.
  assert (Hc : candidates obs s = candidates obs (set_history (before ++ after) s)).
  { unfold candidates. cbn [history set_history]. rewrite Hh.
    apply filter_drop. apply andb_false_iff.
    destruct Ho as [Hl|Hid]; [left|right].
    - unfold of_listing. now apply Z.eqb_neq.
    - apply Z.ltb_ge. lia. }
  unfold is_sale, bind, prior_of.
  fold (candidates obs s) (candidates obs (set_history (before ++ after) s)).
  rewrite <- Hc.
  destruct (hd_error (order_by timestamp_desc (candidates obs s))) as [prior|];
    [|reflexivity].
  destruct (slope _ _ _ _) as [sl|[|]]; reflexivity.
Qed.

Lemma is_sale_ignores_later_witness :
  fst (is_sale (mkStats 7) (AmzProductHistory.mk 2 7 1000000 1)
         (history_7 [(1, 0, 1000); (2, 1000000, 1); (3, 500000, 2000)]))
  = fst (is_sale (mkStats 7) (AmzProductHistory.mk 2 7 1000000 1)
           (set_history ([AmzProductHistory.mk 1 7 0 1000;
                          AmzProductHistory.mk 2 7 1000000 1] ++ [])
                        (history_7 [(1, 0, 1000); (2, 1000000, 1); (3, 500000, 2000)]))).
Proof.
  refine (is_sale_ignores_later (mkStats 7) (AmzProductHistory.mk 2 7 1000000 1)
            (history_7 [(1, 0, 1000); (2, 1000000, 1); (3, 500000, 2000)])
            [AmzProductHistory.mk 1 7 0 1000; AmzProductHistory.mk 2 7 1000000 1] []
            (AmzProductHistory.mk 3 7 500000 2000) eq_refl _).
  right. cbn. lia.
Defined.

(** ** The order of the rows *)

Lemma Permutation_filter {A} (f : A -> bool) (l l' : list A) :
  Permutation l l' -> Permutation (filter f l) (filter f l').
Proof.
  induction 1 as [|x l l' _ IH|x y l|l l' l'' _ IH1 _ IH2]; cbn.
  - constructor.
  - destruct (f x); [now constructor|exact IH].
  - destruct (f x), (f y); try reflexivity. apply perm_swap.
  - now transitivity (filter f l').
Qed.

Lemma strict_perm_eq (l : list point) :
  forall l', StronglySorted earlier l -> StronglySorted earlier l' ->
             Permutation l l' -> l = l'.
Proof.
  induction l as [|a l IH]; intros l' Hs Hs' Hp.
  - apply Permutation_nil in Hp. now subst.
  - destruct l' as [|b l'].
    + apply Permutation_sym, Permutation_nil in Hp. discriminate.
    + inversion Hs as [|? ? Hl Ha]; subst. inversion Hs' as [|? ? Hl' Hb]; subst.
      rewrite Forall_forall in Ha, Hb.
      assert (a = b).
      { assert (Hina : In a (b :: l')) by (eapply Permutation_in; [exact Hp|now left]).
        assert (Hinb : In b (a :: l))
          by (eapply Permutation_in; [exact (Permutation_sym Hp)|now left]).
        destruct Hina as [E|Hina]; [now symmetry|].
        destruct Hinb as [E|Hinb]; [exact E|].
        specialize (Ha b Hinb). specialize (Hb a Hina). unfold earlier in *. lia. }
      subst b. f_equal. apply IH; auto.
      now apply Permutation_cons_inv in Hp.
Qed.

Lemma same_time_dup (l : list point) :
  Exists same_time (pairs l) -> ~ NoDup (map timestamp l).
Proof.
  induction l as [|p l IH]; cbn; intros Hex Hnd; [inversion Hex|].
  destruct l as [|q l]; [inversion Hex|].
  inversion Hnd as [|? ? Hnotin Hnd']; subst.
  inversion Hex as [? ? Hhere|? ? Hlater]; subst.
  - apply Hnotin. unfold same_time in Hhere. cbn in *. now left.
  - now apply IH.
Qed.

Lemma times_perm (self : ProductHistoryStats) (s s' : session) :
  Permutation (history s) (history s') ->
  Permutation (times self s) (times self s').
Proof. intros Hp. unfold times. now apply Permutation_map, Permutation_filter. Qed.

(** X4: [sales_points] does not depend on the order in which the store keeps the
    observations: two sessions whose histories hold the same rows give the
    same result, or both raise. *)
Theorem sales_points_order_independent (self : ProductHistoryStats) (s s' : session) :
  Permutation (history s) (history s') ->
  fst (sales_points self s) = fst (sales_points self s').
Proof.
  intros Hp. unfold sales_points. cbn [fst].
  fold (observations self s) (observations self s').
  destruct (Forall_Exists_dec distinct_times
              (fun pq => match Z.eq_dec (timestamp (fst pq)) (timestamp (snd pq)) with
                         | left E => right (fun H => H E)
                         | right N => left N
                         end)
              (pairs (observations self s))) as [Hall|Hex].
  - assert (Hnd : NoDup (times self s)).
    { eapply Permutation_NoDup; [apply observations_times|].
      apply strict_nodup, sorted_distinct_strict;
        [apply observations_sorted|exact Hall]. }
    assert (Hnd' : NoDup (times self s'))
      by (eapply Permutation_NoDup; [apply times_perm; exact Hp|exact Hnd]).
    f_equal. apply strict_perm_eq.
    + now apply observations_strict.
    + now apply observations_strict.
    + rewrite observations_perm, observations_perm.
      now apply Permutation_map, Permutation_filter.
  - assert (Hsame : Exists same_time (pairs (observations self s))).
    { eapply Exists_impl; [|exact Hex].
      intros pq Hn. unfold same_time, distinct_times in *.
      destruct (Z.eq_dec (timestamp (fst pq)) (timestamp (snd pq))); tauto. }
    assert (Hdup : ~ NoDup (times self s)).
    { intros Hnd. apply (same_time_dup _ Hsame).
      eapply Permutation_NoDup; [symmetry; apply observations_times|exact Hnd]. }
    assert (Hdup' : ~ NoDup (times self s')).
    { intros Hnd. apply Hdup.
      eapply Permutation_NoDup; [symmetry; apply times_perm; exact Hp|exact Hnd]. }
    rewrite (sales_loop_from_start_raises _ Hsame).
    now rewrite (sales_loop_from_start_raises _ (repeated_time_adjacent _ _ Hdup')).
Qed.

Lemma sales_points_order_independent_witness :
  fst (sales_points (mkStats 7) (history_7 [(1, 0, 1000); (2, 1000000, 1)]))
  = fst (sales_points (mkStats 7) (history_7 [(2, 1000000, 1); (1, 0, 1000)])).
Proof.
  apply sales_points_order_independent. cbn. apply perm_swap.
Defined.

(** ** is_sale against sales_points *)







(** ** More on watches *)

Lemma is_watch_of_listing (listing_id : Z) (w : Operation.t) :
  is_watch_of listing_id w = true -> Operation.listing_id w = Some listing_id.
Proof.
  unfold is_watch_of, col_is. rewrite andb_true_iff. intros [Hl _].
  destruct (Operation.listing_id w) as [i|]; [|discriminate].
  apply Z.eqb_eq in Hl. now subst.
Qed.

Lemma is_watch_of_other (listing_id other : Z) (w : Operation.t) :
  Operation.listing_id w = Some listing_id -> other <> listing_id ->
  is_watch_of other w = false.
Proof.
  intros Hl Hne. unfold is_watch_of, col_is. rewrite Hl.
  apply andb_false_iff. left. apply Z.eqb_neq. congruence.
Qed.

Lemma filter_map_frame {A} (P : A -> bool) (f : A -> A) (l : list A) :
  (forall r, In r l -> f r = r \/ (P r = false /\ P (f r) = false)) ->
  filter P (map f l) = filter P l.
Proof.
  induction l as [|r l IH]; cbn; intros Hf; [reflexivity|].
  rewrite IH by (intros r' Hr'; apply Hf; now right).
  destruct (Hf r (or_introl eq_refl)) as [E|[E1 E2]].
  - now rewrite E.
  - now rewrite E1, E2.
Qed.

Lemma set_watch_delete (listing_id : Z) (s : session) (w : Operation.t) (i : Z) :
  find (is_watch_of listing_id) (operations s) = Some w ->
  pk w = Some i ->
  set_watch listing_id None s
  = (Val tt,
     set_operations
       (filter (fun r => negb (opt_eqb Z.eqb (pk r) (Some i))) (operations s)) s).
Proof.
  intros E Hi. unfold set_watch, get_watch, bind, first.
  cbn [rows Operation_table]. rewrite E. unfold delete. now rewrite Hi.
Qed.

(** X6: After [set_watch] with an interval, [get_watch] returns a watch of the
    listing with the params and the schedule just written. *)
Theorem get_watch_after_set_watch (listing_id : Z) (time : string) (s : session) :
  keyed (operations s) = true ->
  exists w s1,
    set_watch listing_id (Some time) s = (Val tt, s1)
    /\ get_watch listing_id s1 = (Val (Some w), s1)
    /\ Operation.listing_id w = Some listing_id
    /\ Operation.params w = watch_params time
    /\ Operation.scheduled w = Some (clock s).
Proof.
  intros Hk. unfold get_watch, first. cbn [rows Operation_table].
  destruct (find (is_watch_of listing_id) (operations s)) as [w0|] eqn:E.
  - pose proof (find_some _ _ E) as [Hin Hw0].
    destruct (keyed_pk (operations s) w0 Hk Hin) as [i Hi].
    rewrite (set_watch_rearm listing_id time s w0 i E Hi).
    exists (armed w0 time (clock s)). eexists. split; [reflexivity|].
    cbn [operations set_operations].
    rewrite (find_replace (is_watch_of listing_id) (operations s) w0
               (armed w0 time (clock s)) i E Hi (is_watch_of_armed _ _ _ _ Hw0)).
    repeat split. cbn. now apply is_watch_of_listing.
  - rewrite (set_watch_new listing_id time s E).
    eexists _, _. split; [reflexivity|].
    cbn [operations set_operations].
    rewrite (find_app_last _ _ _ E (is_watch_of_new _ _ _ _)).
    repeat split.
Qed.

Lemma get_watch_after_set_watch_witness :
  keyed (operations empty_session) = true
  /\ exists w s1,
      set_watch 3 (Some "1d"%string) empty_session = (Val tt, s1)
      /\ get_watch 3 s1 = (Val (Some w), s1)
      /\ Operation.params w = watch_params "1d"%string.
Proof.
  split; [reflexivity|].
  destruct (get_watch_after_set_watch 3 "1d"%string empty_session eq_refl)
    as [w [s1 [H1 [H2 [_ [H3 _]]]]]].
  exists w, s1. auto.
Defined.

(** X7: [set_watch] keeps the invariants of the operations table, touches no
    watch of another listing, and keeps every operation that is not a watch
    of the listing. *)
Theorem set_watch_keeps_invariants (listing_id : Z) (time : option string)
    (s : session) :
  watch_store_ok s ->
  exists s1,
    set_watch listing_id time s = (Val tt, s1)
    /\ watch_store_ok s1
    /\ (forall other, other <> listing_id -> watches other s1 = watches other s)
    /\ (forall r, In r (operations s) -> is_watch_of listing_id r = false ->
                  In r (operations s1)).
Proof.
  intros [Hk [Hnd Hone]].
  pose proof (find_filter (is_watch_of listing_id) (operations s)) as Hfind.
  fold (watches listing_id s) in Hfind.
  assert (Hok : forall s1,
             keyed (operations s1) = true -> NoDup (map pk (operations s1)) ->
             (Datatypes.length (watches listing_id s1) <= 1)%nat ->
             (forall other, other <> listing_id -> watches other s1 = watches other s) ->
             watch_store_ok s1).
  { intros s1 Hk1 Hnd1 Hlen Hframe. split; [exact Hk1|]. split; [exact Hnd1|].
    intros other. destruct (Z.eq_dec other listing_id) as [->|Hne]; [exact Hlen|].
    rewrite (Hframe other Hne). apply Hone. }
  destruct time as [time|].
  - destruct (set_watch_arm listing_id time s Hk Hnd (Hone listing_id))
      as [w [s1 [Hcall [Hw [_ [_ [_ [_ [Hk1 Hnd1]]]]]]]]].
    exists s1. split; [exact Hcall|].
    assert (Hshape :
              (forall other, other <> listing_id -> watches other s1 = watches other s)
              /\ (forall r, In r (operations s) -> is_watch_of listing_id r = false ->
                            In r (operations s1))).
    { destruct (watches listing_id s) as [|w0 rest] eqn:Ew; cbn [hd_error] in Hfind.
      - rewrite (set_watch_new listing_id time s Hfind) in Hcall.
        injection Hcall as <-. cbn [operations set_operations]. split.
        + intros other Hne. unfold watches. cbn [operations set_operations].
          rewrite filter_app. cbn [filter].
          match goal with
          | |- context [is_watch_of other ?w] =>
              rewrite (is_watch_of_other listing_id other w eq_refl Hne)
          end.
          now rewrite app_nil_r.
        + intros r Hr _. apply in_or_app. now left.
      - pose proof (find_some _ _ Hfind) as [Hin Hw0].
        destruct (keyed_pk (operations s) w0 Hk Hin) as [i Hi].
        rewrite (set_watch_rearm listing_id time s w0 i Hfind Hi) in Hcall.
        injection Hcall as <-. cbn [operations set_operations]. split.
        + intros other Hne. unfold watches. cbn [operations set_operations].
          apply filter_map_frame. intros r Hr. cbn beta.
          match goal with
          | |- context [opt_eqb Z.eqb ?x (Some i)] =>
              destruct (opt_eqb Z.eqb x (Some i)) eqn:Ei
          end; [right|now left].
          apply opt_eqb_Some in Ei.
          rewrite (unique_pk (operations s) r w0 i Hnd Hr Hin Ei Hi).
          split; apply (is_watch_of_other listing_id); auto.
          * now apply is_watch_of_listing.
          * cbn. now apply is_watch_of_listing.
        + intros r Hr Hnot. apply in_map_iff. exists r. split; [|exact Hr].
          match goal with
          | |- context [opt_eqb Z.eqb ?x (Some i)] =>
              destruct (opt_eqb Z.eqb x (Some i)) eqn:Ei
          end; [|reflexivity].
          apply opt_eqb_Some in Ei.
          rewrite (unique_pk (operations s) r w0 i Hnd Hr Hin Ei Hi) in Hnot.
          congruence. }
    destruct Hshape as [Hframe Hkeep].
    split; [|split; assumption].
    apply Hok; auto. rewrite Hw. cbn. lia.
  - destruct (watches listing_id s) as [|w0 rest] eqn:Ew; cbn [hd_error] in Hfind.
    + exists s. rewrite (set_watch_clear_absent listing_id s Ew).
      split; [reflexivity|]. split; [|split; auto].
      split; [exact Hk|]. split; [exact Hnd|exact Hone].
    + pose proof (find_some _ _ Hfind) as [Hin Hw0].
      destruct (keyed_pk (operations s) w0 Hk Hin) as [i Hi].
      assert (Hrest : rest = []).
      { pose proof (Hone listing_id) as Hlen. rewrite Ew in Hlen.
        destruct rest; [reflexivity|cbn in Hlen; lia]. }
      subst rest.
      rewrite (set_watch_delete listing_id s w0 i Hfind Hi).
      eexists. split; [reflexivity|].
      assert (Hframe : forall other, other <> listing_id ->
                filter (is_watch_of other)
                       (filter (fun r => negb (opt_eqb Z.eqb (pk r) (Some i)))
                               (operations s))
                = watches other s).
      { intros other Hne. rewrite filter_comm. apply filter_all.
        intros r Hr. apply filter_In in Hr. destruct Hr as [Hr Hwr].
        apply negb_true_iff.
        match goal with
          | |- context [opt_eqb Z.eqb ?x (Some i)] =>
              destruct (opt_eqb Z.eqb x (Some i)) eqn:Ei
          end; [|reflexivity].
        apply opt_eqb_Some in Ei.
        rewrite (unique_pk (operations s) r w0 i Hnd Hr Hin Ei Hi) in Hwr.
        rewrite (is_watch_of_other listing_id other w0
                   (is_watch_of_listing _ _ Hw0) Hne) in Hwr. discriminate. }
      split; [|split].
      * apply Hok; cbn [operations set_operations].
        -- unfold keyed in *. rewrite forallb_forall in *. intros r Hr.
           apply filter_In in Hr. apply Hk. tauto.
        -- now apply NoDup_map_filter.
        -- unfold watches. cbn [operations set_operations].
           destruct (filter (is_watch_of listing_id) _) as [|r rest] eqn:E;
             [cbn; lia|].
           exfalso. assert (Hr : In r (r :: rest)) by now left.
           rewrite <- E in Hr. apply filter_In in Hr. destruct Hr as [Hr Hwr].
           apply filter_In in Hr. destruct Hr as [Hr Hne].
           assert (Hrw : In r (watches listing_id s)) by (apply filter_In; auto).
           rewrite Ew in Hrw. destruct Hrw as [<-|[]].
           apply negb_true_iff in Hne.
           rewrite (proj2 (opt_eqb_Some _ _) Hi) in Hne. discriminate.
        -- intros other Hne. unfold watches at 1. cbn [operations set_operations].
           now apply Hframe.
      * intros other Hne. unfold watches at 1. cbn [operations set_operations].
        now apply Hframe.
      * intros r Hr Hnot. cbn [operations set_operations].
        apply filter_In. split; [exact Hr|]. apply negb_true_iff.
        match goal with
          | |- context [opt_eqb Z.eqb ?x (Some i)] =>
              destruct (opt_eqb Z.eqb x (Some i)) eqn:Ei
          end; [|reflexivity].
        apply opt_eqb_Some in Ei.
        rewrite (unique_pk (operations s) r w0 i Hnd Hr Hin Ei Hi) in Hnot.
        congruence.
Qed.

Lemma set_watch_keeps_invariants_witness :
  watch_store_ok empty_session
  /\ exists s1, set_watch 3 (Some "1d"%string) empty_session = (Val tt, s1)
                /\ watch_store_ok s1.
Proof.
  assert (H0 : watch_store_ok empty_session).
  { split; [reflexivity|]. split; [constructor|]. intros i. cbn. lia. }
  split; [exact H0|].
  destruct (set_watch_keeps_invariants 3 (Some "1d"%string) empty_session H0)
    as [s1 [H1 [H2 _]]].
  exists s1. auto.
Defined.

(** ** Keys *)

Lemma keyed_app {T} `{Table T} (l : list T) (r : T) (i : Z) :
  keyed l = true -> pk r = Some i -> keyed (l ++ [r]) = true.
Proof.
  intros Hk Hi. unfold keyed in *. rewrite forallb_app, Hk. cbn. now rewrite Hi.
Qed.




(** ** More on links *)

Lemma map_replace_fresh {T} `{Table T} (l : list T) (o : T) (i : Z) :
  (forall r, In r l -> pk r <> Some i) ->
  map (fun r => if opt_eqb Z.eqb (pk r) (Some i) then o else r) l = l.
Proof.
  intros Hne. induction l as [|r l IH]; cbn; [reflexivity|].
  rewrite IH by (intros r' Hr'; apply Hne; now right).
  destruct (opt_eqb Z.eqb (pk r) (Some i)) eqn:E; [|reflexivity].
  apply opt_eqb_Some in E. exfalso. exact (Hne r (or_introl eq_refl) E).
Qed.

Lemma fresh_pk_not_in {T} `{Table T} (l : list T) (r : T) :
  In r l -> pk r <> Some (fresh_pk l).
Proof.
  intros Hin E. apply (fresh_pk_fresh l). rewrite <- E. now apply in_map.
Qed.

Lemma map_replace_last {T} `{Table T} (l : list T) (obj o : T) (i : Z) :
  pk obj = Some i -> (forall r, In r l -> pk r <> Some i) ->
  map (fun r => if opt_eqb Z.eqb (pk r) (Some i) then o else r) (l ++ [obj])
  = l ++ [o].
Proof.
  intros Hi Hne. rewrite map_app, (map_replace_fresh l o i Hne). cbn [map].
  now rewrite (proj2 (opt_eqb_Some _ _) Hi).
Qed.

Lemma filter_out_last {T} `{Table T} (l : list T) (o : T) (i : Z) :
  pk o = Some i -> (forall r, In r l -> pk r <> Some i) ->
  filter (fun r => negb (opt_eqb Z.eqb (pk r) (Some i))) (l ++ [o]) = l.
Proof.
  intros Hi Hne. rewrite filter_app. cbn [filter].
  rewrite (proj2 (opt_eqb_Some _ _) Hi). cbn [negb]. rewrite app_nil_r.
  apply filter_all. intros r Hr. apply negb_true_iff.
  destruct (opt_eqb Z.eqb (pk r) (Some i)) eqn:E; [|reflexivity].
  apply opt_eqb_Some in E. exfalso. exact (Hne r Hr E).
Qed.

(** A call for a pair that has no link: the link is appended, and scored. *)
Lemma link_products_ids_new scorer (amz vnd : Z) (s : session) :
  find (filter_by LinkedProducts.t (link_kwargs amz vnd)) (links s) = None ->
  exists link s1,
    link_products_ids scorer amz vnd s = (Val link, s1)
    /\ links s1 = links s ++ [link]
    /\ pk link = Some (fresh_pk (links s))
    /\ filter_by LinkedProducts.t (link_kwargs amz vnd) link = true
    /\ scored s1 = scored s ++ [Some (fresh_pk (links s))].
Proof.
  intros Hfind.
  unfold link_products_ids, bind. fold (link_kwargs amz vnd).
  rewrite (get_or_create_new (dtype := LinkedProducts.t) (link_kwargs amz vnd) s Hfind).
  cbn [construct link_kwargs fold_left setattr LinkedProducts_columns blank set_pk
       LinkedProducts_table LinkedProducts.confidence LinkedProducts.id
       LinkedProducts.amz_listing_id LinkedProducts.vnd_listing_id].
  unfold flush, ret, build_confidence, assign.
  cbn [pk LinkedProducts_table LinkedProducts.id rows set_rows links set_links set_scored
       LinkedProducts.amz_listing_id LinkedProducts.vnd_listing_id].
  eexists _, _. split; [reflexivity|].
  cbn [links set_links scored set_scored].
  split.
  { match goal with
    | |- map _ (?l ++ [?obj]) = ?l ++ [?o] =>
        exact (map_replace_last l obj o (fresh_pk l) eq_refl (fresh_pk_not_in l))
    end. }
  split; [reflexivity|]. split; [|reflexivity].
  cbn. now rewrite !Z.eqb_refl.
Qed.

Lemma unlink_products_found (amz vnd : Z) (s : session) (link : LinkedProducts.t)
    (i : Z) :
  find (filter_by LinkedProducts.t (link_kwargs amz vnd)) (links s) = Some link ->
  pk link = Some i ->
  unlink_products amz vnd s
  = (Val tt,
     set_links (filter (fun r => negb (opt_eqb Z.eqb (pk r) (Some i))) (links s)) s).
Proof.
  intros E Hi. unfold unlink_products, bind, first. fold (link_kwargs amz vnd).
  cbn [rows LinkedProducts_table]. rewrite E. unfold delete. now rewrite Hi.
Qed.

(** X9: Linking a pair that had no link and unlinking it again leaves the table
    of links as it was. *)
Theorem unlink_after_link scorer (amz vnd : Z) (s : session) :
  find (filter_by LinkedProducts.t (link_kwargs amz vnd)) (links s) = None ->
  exists link s1 s2,
    link_products_ids scorer amz vnd s = (Val link, s1)
    /\ In link (links s1)
    /\ unlink_products amz vnd s1 = (Val tt, s2)
    /\ links s2 = links s.
Proof.
  intros Hfind.
  destruct (link_products_ids_new scorer amz vnd s Hfind)
    as [link [s1 [Hcall [Hlinks [Hpk [Hf _]]]]]].
  assert (Hfind1 : find (filter_by LinkedProducts.t (link_kwargs amz vnd)) (links s1)
                   = Some link).
  { rewrite Hlinks. now apply find_app_last. }
  exists link, s1. eexists. split; [exact Hcall|].
  split; [rewrite Hlinks; apply in_or_app; right; now left|].
  split; [exact (unlink_products_found amz vnd s1 link _ Hfind1 Hpk)|].
  cbn [links set_links]. rewrite Hlinks.
  exact (filter_out_last (links s) link _ Hpk (fresh_pk_not_in (links s))).
Qed.

Lemma unlink_after_link_witness :
  find (filter_by LinkedProducts.t (link_kwargs 1 2)) (links empty_session) = None
  /\ exists link s1 s2,
      link_products_ids (fun _ _ => Some (9 # 10)) 1 2 empty_session = (Val link, s1)
      /\ unlink_products 1 2 s1 = (Val tt, s2)
      /\ links s2 = [].
Proof.
  split; [reflexivity|].
  destruct (unlink_after_link (fun _ _ => Some (9 # 10)) 1 2 empty_session eq_refl)
    as [link [s1 [s2 [H1 [_ [H2 H3]]]]]].
  exists link, s1, s2. auto.
Defined.

Lemma filter_out_one {T} `{Table T} (l : list T) (o : T) (i : Z) :
  NoDup (map pk l) -> In o l -> pk o = Some i ->
  (forall r, In r (filter (fun r => negb (opt_eqb Z.eqb (pk r) (Some i))) l)
             <-> In r l /\ r <> o)
  /\ S (Datatypes.length (filter (fun r => negb (opt_eqb Z.eqb (pk r) (Some i))) l))
     = Datatypes.length l.
Proof.
  intros Hnd Hin Hi. split.
  - intros r. rewrite filter_In, negb_true_iff. split.
    + intros [Hr Hne]. split; [exact Hr|]. intros ->.
      rewrite (proj2 (opt_eqb_Some _ _) Hi) in Hne. discriminate.
    + intros [Hr Hne]. split; [exact Hr|].
      destruct (opt_eqb Z.eqb (pk r) (Some i)) eqn:E; [|reflexivity].
      apply opt_eqb_Some in E. exfalso. apply Hne.
      exact (unique_pk l r o i Hnd Hr Hin E Hi).
  - induction l as [|x l IH]; [contradiction|].
    cbn [map] in Hnd. inversion Hnd as [|? ? Hnotin Hnd']; subst.
    cbn [filter Datatypes.length].
    destruct Hin as [->|Hin].
    + rewrite (proj2 (opt_eqb_Some _ _) Hi). cbn [negb]. f_equal.
      f_equal. apply filter_all. intros r Hr. apply negb_true_iff.
      destruct (opt_eqb Z.eqb (pk r) (Some i)) eqn:E; [|reflexivity].
      apply opt_eqb_Some in E. exfalso. apply Hnotin. rewrite Hi, <- E.
      now apply in_map.
    + destruct (opt_eqb Z.eqb (pk x) (Some i)) eqn:E.
      * apply opt_eqb_Some in E. exfalso. apply Hnotin. rewrite E, <- Hi.
        now apply in_map.
      * cbn [negb Datatypes.length]. f_equal. now apply IH.
Qed.

(** X10: [unlink_products] deletes at most one link per call: nothing when the
    pair has no link; otherwise the first link of the pair and no other row. *)
Theorem unlink_products_removes_one (amz vnd : Z) (s : session) :
  (find (filter_by LinkedProducts.t (link_kwargs amz vnd)) (links s) = None ->
   unlink_products amz vnd s = (Val tt, s))
  /\ (forall link,
        keyed (links s) = true ->
        NoDup (map pk (links s)) ->
        find (filter_by LinkedProducts.t (link_kwargs amz vnd)) (links s) = Some link ->
        exists s1,
          unlink_products amz vnd s = (Val tt, s1)
          /\ (forall r, In r (links s1) <-> In r (links s) /\ r <> link)
          /\ S (Datatypes.length (links s1)) = Datatypes.length (links s)).
Proof.
  split.
  - intros E. unfold unlink_products, bind, first. fold (link_kwargs amz vnd).
    cbn [rows LinkedProducts_table]. now rewrite E.
  - intros link Hk Hnd E.
    pose proof (find_some _ _ E) as [Hin _].
    destruct (keyed_pk (links s) link Hk Hin) as [i Hi].
    rewrite (unlink_products_found amz vnd s link i E Hi).
    eexists. split; [reflexivity|].
    cbn [links set_links].
    exact (filter_out_one (links s) link i Hnd Hin Hi).
Qed.

Lemma unlink_products_removes_one_witness :
  (keyed (links (snd (link_products_ids (fun _ _ => None) 1 2 empty_session))) = true
   /\ NoDup (map pk (links (snd (link_products_ids (fun _ _ => None) 1 2
                                   empty_session)))))
  /\ exists s1,
      unlink_products 1 2 (snd (link_products_ids (fun _ _ => None) 1 2 empty_session))
      = (Val tt, s1)
      /\ S (Datatypes.length (links s1)) = 1%nat.
Proof.
  assert (Hk : keyed (links (snd (link_products_ids (fun _ _ => None) 1 2
                                    empty_session))) = true) by reflexivity.
  assert (Hnd : NoDup (map pk (links (snd (link_products_ids (fun _ _ => None) 1 2
                                             empty_session))))).
  { cbn. repeat constructor. intros []. }
  split; [split; assumption|].
  destruct (proj2 (unlink_products_removes_one 1 2
                     (snd (link_products_ids (fun _ _ => None) 1 2 empty_session)))
                  (LinkedProducts.mk (Some 1) (Some 1) (Some 2) None)
                  Hk Hnd eq_refl) as [s1 [H1 [_ H2]]].
  exists s1. auto.
Defined.

Lemma keyed_map_replace {T} `{Table T} (l : list T) (o : T) (i : Z) :
  keyed l = true -> pk o = Some i ->
  keyed (map (fun r => if opt_eqb Z.eqb (pk r) (Some i) then o else r) l) = true.
Proof.
  intros Hk Hi. unfold keyed in *. rewrite forallb_forall in *. intros r Hr.
  apply in_map_iff in Hr. destruct Hr as [r0 [<- Hr0]].
  destruct (opt_eqb Z.eqb (pk r0) (Some i)); [now rewrite Hi|auto].
Qed.

(** A call for a pair whose link has no confidence: the link is scored again. *)
Lemma link_products_ids_rescore scorer (amz vnd : Z) (s : session)
    (o : LinkedProducts.t) (i : Z) :
  find (filter_by LinkedProducts.t (link_kwargs amz vnd)) (links s) = Some o ->
  LinkedProducts.confidence o = None ->
  pk o = Some i ->
  exists link s1,
    link_products_ids scorer amz vnd s = (Val link, s1)
    /\ LinkedProducts.confidence link = scorer s o
    /\ links s1
       = map (fun r => if opt_eqb Z.eqb (pk r) (Some i) then link else r) (links s)
    /\ pk link = Some i
    /\ find (filter_by LinkedProducts.t (link_kwargs amz vnd)) (links s1) = Some link
    /\ scored s1 = scored s ++ [Some i].
Proof.
  intros Hfind Hc Hi.
  unfold link_products_ids, bind. fold (link_kwargs amz vnd).
  rewrite (get_or_create_found (dtype := LinkedProducts.t) (link_kwargs amz vnd) s o Hfind).
  rewrite Hc. unfold flush, ret, build_confidence, assign.
  pose proof Hi as Hi'. cbn in Hi'.
  cbn [pk LinkedProducts_table]. rewrite Hi'.
  eexists _, _. split; [reflexivity|].
  cbn [links set_links scored set_scored rows set_rows LinkedProducts_table
       LinkedProducts.confidence LinkedProducts.id].
  split; [reflexivity|]. split; [reflexivity|]. split; [reflexivity|].
  split; [|reflexivity].
  refine (find_replace (filter_by LinkedProducts.t (link_kwargs amz vnd))
            (links s) o _ i Hfind Hi _).
  apply find_some in Hfind. exact (proj2 Hfind).
Qed.

(** X11: When the scorer yields no confidence the link keeps none, and every call
    invokes the scorer again: [n] calls in a row, [n] invocations. *)
Theorem link_rescored_without_confidence scorer (amz vnd : Z) (n : nat) :
  (forall s' l, scorer s' l = None) ->
  forall s,
    keyed (links s) = true ->
    (forall l, find (filter_by LinkedProducts.t (link_kwargs amz vnd)) (links s)
               = Some l ->
               LinkedProducts.confidence l = None) ->
    exists s1,
      link_times n scorer amz vnd s = (Val tt, s1)
      /\ Datatypes.length (scored s1) = (Datatypes.length (scored s) + n)%nat.
Proof.
  intros Hnone. induction n as [|n IH]; intros s Hk Hunscored.
  - exists s. split; [reflexivity|]. cbn. lia.
  - assert (Hstep : exists link s1,
               link_products_ids scorer amz vnd s = (Val link, s1)
               /\ keyed (links s1) = true
               /\ find (filter_by LinkedProducts.t (link_kwargs amz vnd)) (links s1)
                  = Some link
               /\ LinkedProducts.confidence link = None
               /\ Datatypes.length (scored s1) = S (Datatypes.length (scored s))).
    { destruct (find (filter_by LinkedProducts.t (link_kwargs amz vnd)) (links s))
        as [o|] eqn:Hfind.
      - pose proof (find_some _ _ Hfind) as [Hin _].
        destruct (keyed_pk (links s) o Hk Hin) as [i Hi].
        destruct (link_products_ids_rescore scorer amz vnd s o i Hfind
                    (Hunscored o eq_refl) Hi)
          as [link [s1 [Hcall [Hc [Hlinks [Hpk [Hf Hsc]]]]]]].
        exists link, s1. split; [exact Hcall|].
        split; [rewrite Hlinks; now apply keyed_map_replace|].
        split; [exact Hf|]. split; [now rewrite Hc|].
        rewrite Hsc, length_app. cbn. lia.
      - destruct (link_products_ids_new scorer amz vnd s Hfind)
          as [link [s1 [Hcall [Hlinks [Hpk [Hf Hsc]]]]]].
        pose proof (link_products_ids_finds scorer amz vnd s s1 link Hk Hcall) as Hf1.
        exists link, s1. split; [exact Hcall|].
        split; [rewrite Hlinks; eapply keyed_app; eauto|].
        split; [exact Hf1|].
        split.
        + revert Hcall. unfold link_products_ids, bind. fold (link_kwargs amz vnd).
          rewrite (get_or_create_new (dtype := LinkedProducts.t)
                     (link_kwargs amz vnd) s Hfind).
          cbn [construct link_kwargs fold_left setattr LinkedProducts_columns blank
               set_pk LinkedProducts_table LinkedProducts.confidence].
          unfold flush, ret, build_confidence, assign.
          cbn [pk LinkedProducts_table LinkedProducts.id].
          intros E. injection E as <- _. cbn. apply Hnone.
        + rewrite Hsc, length_app. cbn. lia. }
    destruct Hstep as [link [s1 [Hcall [Hk1 [Hf1 [Hc1 Hlen1]]]]]].
    destruct (IH s1 Hk1) as [s2 [Hrest Hlen2]].
    { intros l E. rewrite Hf1 in E. injection E as <-. exact Hc1. }
    exists s2. split.
    + cbn [link_times]. unfold bind. now rewrite Hcall.
    + rewrite Hlen2, Hlen1. lia.
Qed.

Lemma link_rescored_without_confidence_witness :
  (keyed (links empty_session) = true
   /\ forall l, find (filter_by LinkedProducts.t (link_kwargs 1 2)) (links empty_session)
                = Some l ->
                LinkedProducts.confidence l = None)
  /\ exists s1,
      link_times 3 (fun _ _ => None) 1 2 empty_session = (Val tt, s1)
      /\ Datatypes.length (scored s1) = 3%nat.
Proof.
  assert (Hk : keyed (links empty_session) = true) by reflexivity.
  assert (Hu : forall l,
             find (filter_by LinkedProducts.t (link_kwargs 1 2)) (links empty_session)
             = Some l ->
             LinkedProducts.confidence l = None) by (intros l E; discriminate E).
  split; [split; assumption|].
  exact (link_rescored_without_confidence (fun _ _ => None) 1 2 3
           (fun _ _ => eq_refl) empty_session Hk Hu).
Defined.

(** ** Categories, twice *)

Lemma map_replace_idem {T} `{Table T} (l : list T) (o : T) (i : Z) :
  pk o = Some i ->
  map (fun r => if opt_eqb Z.eqb (pk r) (Some i) then o else r)
      (map (fun r => if opt_eqb Z.eqb (pk r) (Some i) then o else r) l)
  = map (fun r => if opt_eqb Z.eqb (pk r) (Some i) then o else r) l.
Proof.
  intros Hi. rewrite map_map. apply map_ext. intros r.
  destruct (opt_eqb Z.eqb (pk r) (Some i)) eqn:E.
  - now rewrite (proj2 (opt_eqb_Some _ _) Hi).
  - now rewrite E.
Qed.

Lemma find_app_none {A} (f : A -> bool) (l : list A) (x : A) :
  find f l = None -> f x = false -> find f (l ++ [x]) = None.
Proof.
  intros Hnone Hx. induction l as [|y l IH]; cbn in *.
  - now rewrite Hx.
  - destruct (f y); [discriminate|auto].
Qed.

(** The fallback, called twice. *)
Lemma unknown_category_twice (s : session) :
  exists c s1,
    get_or_create AmazonCategory.t (by_name "Unknown") s = (Val c, s1)
    /\ get_or_create AmazonCategory.t (by_name "Unknown") s1 = (Val c, s1)
    /\ (categories s1 = categories s
        \/ categories s1
           = categories s
             ++ [AmazonCategory.mk (Some (fresh_pk (categories s))) None
                                   (Some "Unknown"%string) []]).
Proof.
  destruct (find (filter_by AmazonCategory.t (by_name "Unknown")) (categories s))
    as [o|] eqn:E.
  - exists o, s.
    rewrite (get_or_create_found (dtype := AmazonCategory.t) _ s o E). auto.
  - eexists _, _.
    rewrite (get_or_create_new (dtype := AmazonCategory.t) _ s E).
    split; [reflexivity|]. split; [|right; reflexivity].
    apply (get_or_create_found (dtype := AmazonCategory.t)).
    cbn [rows set_rows AmazonCategory_table categories set_categories].
    apply find_app_last; [exact E|reflexivity].
Qed.

(** A category that is found by its id, has a name and is the only row with
    its key is returned as it is. *)
Lemma category_by_id_settled (v : string) (group : option string) (s : session)
    (c : AmazonCategory.t) (i : Z) :
  v <> ""%string ->
  find (filter_by AmazonCategory.t (by_category_id v)) (categories s) = Some c ->
  pk c = Some i ->
  truthy (AmazonCategory.name c) = true ->
  map (fun r => if opt_eqb Z.eqb (pk r) (Some i) then c else r) (categories s)
  = categories s ->
  get_or_create_category (Some v) group s = (Val c, s).
Proof.
  intros Hne Hfind Hi Hname Hmap.
  unfold get_or_create_category. rewrite (proj2 (truthy_Some v) Hne).
  cbn [str_of]. fold (by_category_id v). unfold bind at 1 2.
  rewrite (get_or_create_found (dtype := AmazonCategory.t) _ s c Hfind).
  unfold bind, assign, ret. rewrite Hname.
  destruct s, c. cbn in *. subst. rewrite Hmap. reflexivity.
Qed.

(** X12: [get_or_create_category] is idempotent: a second call with the same
    arguments returns the same category and changes nothing. *)
Theorem get_or_create_category_idempotent (productcategory_id group : option string)
    (s : session) :
  exists c s1,
    get_or_create_category productcategory_id group s = (Val c, s1)
    /\ get_or_create_category productcategory_id group s1 = (Val c, s1).
Proof.
  assert (Hfallback : forall s0 : session,
             exists c s1,
               (c0 <- ret (@None AmazonCategory.t) ;;
                match c0 with
                | Some c => ret c
                | None => get_or_create AmazonCategory.t (by_name "Unknown")
                end) s0 = (Val c, s1)
               /\ (c0 <- ret (@None AmazonCategory.t) ;;
                   match c0 with
                   | Some c => ret c
                   | None => get_or_create AmazonCategory.t (by_name "Unknown")
                   end) s1 = (Val c, s1)).
  { intros s0. destruct (unknown_category_twice s0) as [c [s1 [H1 [H2 _]]]].
    exists c, s1. unfold bind, ret. auto. }
  destruct (truthy productcategory_id) eqn:Tp.
  - destruct productcategory_id as [v|]; [|discriminate].
    pose proof (proj1 (truthy_Some v) Tp) as Hne.
    assert (Hfirst : exists c s1,
               get_or_create_category (Some v) group s = (Val c, s1)
               /\ (s1 = s
                   \/ exists i,
                       find (filter_by AmazonCategory.t (by_category_id v))
                            (categories s1) = Some c
                       /\ pk c = Some i
                       /\ truthy (AmazonCategory.name c) = true
                       /\ map (fun r => if opt_eqb Z.eqb (pk r) (Some i) then c else r)
                              (categories s1)
                          = categories s1)).
    { unfold get_or_create_category. rewrite Tp. cbn [str_of].
      fold (by_category_id v). unfold bind at 1 2.
      destruct (find (filter_by AmazonCategory.t (by_category_id v)) (categories s))
        as [old|] eqn:E.
      - rewrite (get_or_create_found (dtype := AmazonCategory.t) _ s old E).
        unfold bind, assign, ret.
        destruct (pk old) as [i|] eqn:Hi.
        + eexists _, _. split; [reflexivity|]. right. exists i.
          cbn [categories set_categories rows set_rows AmazonCategory_table].
          split.
          { refine (find_replace _ (categories s) old _ i E Hi _).
            apply find_some in E. exact (proj2 E). }
          split; [exact Hi|].
          split.
          { cbn [AmazonCategory.name].
            destruct (truthy (AmazonCategory.name old)) eqn:Tn; [exact Tn|exact Tp]. }
          apply (map_replace_idem (categories s)). exact Hi.
        + eexists _, _. split; [reflexivity|]. now left.
      - rewrite (get_or_create_new (dtype := AmazonCategory.t) _ s E).
        unfold bind, assign, ret.
        cbn [construct by_category_id fold_left setattr AmazonCategory_columns blank
             set_pk AmazonCategory_table AmazonCategory.id AmazonCategory.name
             AmazonCategory.product_category_id AmazonCategory.product_groups pk
             truthy].
        eexists _, _. split; [reflexivity|]. right.
        exists (fresh_pk (categories s)).
        cbn [categories set_categories rows set_rows AmazonCategory_table].
        split.
        { match goal with
          | |- find ?f (map _ (?l ++ [?o])) = Some ?o' =>
              refine (find_replace f (l ++ [o]) o o' (fresh_pk (categories s)) _ _ _)
          end.
          - apply find_app_last; [exact E|]. cbn. now rewrite String.eqb_refl.
          - reflexivity.
          - cbn. now rewrite String.eqb_refl. }
        split; [reflexivity|]. split; [exact Tp|].
        match goal with
        | |- map _ (map (fun r => if _ then ?o else r) ?l) = _ =>
            exact (map_replace_idem l o (fresh_pk (categories s)) eq_refl)
        end. }
    destruct Hfirst as [c [s1 [Hcall [->|[i [Hf [Hi [Hn Hm]]]]]]]].
    + exists c, s. auto.
    + exists c, s1. split; [exact Hcall|].
      exact (category_by_id_settled v group s1 c i Hne Hf Hi Hn Hm).
  - unfold get_or_create_category. rewrite Tp.
    destruct (truthy group) eqn:Tg.
    + unfold bind, first. cbn [rows AmazonCategory_table].
      destruct (find (groups_contain (str_of group)) (categories s)) as [c|] eqn:E.
      * exists c, s. rewrite E. split; reflexivity.
      * destruct (unknown_category_twice s) as [c [s1 [H1 [H2 Hcat]]]].
        exists c, s1. split; [exact H1|].
        assert (E1 : find (groups_contain (str_of group)) (categories s1) = None).
        { destruct Hcat as [->| ->]; [exact E|].
          apply find_app_none; [exact E|reflexivity]. }
        rewrite E1. exact H2.
    + destruct (Hfallback s) as [c [s1 [H1 H2]]]. exists c, s1. auto.
Qed.

(** ** Lists, for any ids *)

Lemma add_row_incl (key : option Z) (x : Z) (ms : list ListMembership.t)
    (m : ListMembership.t) :
  In m ms -> In m (add_row key x ms).
Proof.
  intros Hin. unfold add_row. destruct (find _ ms); [exact Hin|].
  apply in_or_app. now left.
Qed.

Lemma add_row_has (key : option Z) (x : Z) (ms : list ListMembership.t) :
  exists m, In m (add_row key x ms) /\ is_member key x m = true.
Proof.
  unfold add_row.
  destruct (find (filter_by ListMembership.t (member_kwargs key x)) ms) as [m|] eqn:E.
  - exists m. apply find_some in E. exact E.
  - eexists. split; [apply in_or_app; right; now left|].
    apply is_member_iff. cbn. auto.
Qed.

Lemma add_row_present (key : option Z) (x : Z) (ms : list ListMembership.t) :
  (exists m, In m ms /\ is_member key x m = true) -> add_row key x ms = ms.
Proof.
  intros [m [Hin Hm]]. unfold add_row.
  destruct (find (filter_by ListMembership.t (member_kwargs key x)) ms) eqn:E;
    [reflexivity|].
  apply (find_none _ _ E) in Hin. unfold is_member in Hm. congruence.
Qed.

Lemma add_rows_incl (key : option Z) (ids : list Z) :
  forall ms m, In m ms -> In m (add_rows key ids ms).
Proof.
  induction ids as [|x ids IH]; intros ms m Hin; [exact Hin|].
  cbn. apply IH. now apply add_row_incl.
Qed.

Lemma add_rows_has (key : option Z) (ids : list Z) :
  forall ms x, In x ids ->
    exists m, In m (add_rows key ids ms) /\ is_member key x m = true.
Proof.
  induction ids as [|y ids IH]; intros ms x Hx; [contradiction|].
  cbn. destruct Hx as [->|Hx]; [|now apply IH].
  destruct (add_row_has key x ms) as [m [Hin Hm]].
  exists m. split; [now apply add_rows_incl|exact Hm].
Qed.

Lemma add_rows_tidy (key : option Z) (ids : list Z) :
  forall ms, tidy key ms -> tidy key (add_rows key ids ms).
Proof.
  induction ids as [|x ids IH]; intros ms Ht; [exact Ht|].
  cbn. apply IH. now apply add_row_tidy.
Qed.

Lemma add_rows_present (key : option Z) (ids : list Z) (ms : list ListMembership.t) :
  (forall x, In x ids -> exists m, In m ms /\ is_member key x m = true) ->
  add_rows key ids ms = ms.
Proof.
  induction ids as [|x ids IH]; intros Hall; [reflexivity|].
  cbn. rewrite add_row_present by (apply Hall; now left).
  apply IH. intros y Hy. apply Hall. now right.
Qed.

Lemma add_loop_effect (add_list : List.t) (ids : list Z) :
  forall s,
    exists s',
      for_each ids (fun listing_id =>
                      _ <- get_or_create ListMembership.t
                             (relation_kwargs add_list listing_id) ;;
                      ret tt) s
      = (Val tt, s')
      /\ lists s' = lists s
      /\ listings s' = listings s
      /\ memberships s' = add_rows (List.id add_list) ids (memberships s).
Proof.
  induction ids as [|x ids IH]; intros s.
  - exists s. repeat split.
  - destruct (add_member_effect add_list x s) as [m [sa [Ha [Hl [Hli Hm]]]]].
    destruct (IH sa) as [sb [Hb [Hlb [Hlib Hmb]]]].
    exists sb. cbn [for_each add_rows fold_left].
    split.
    + unfold bind at 1. unfold bind at 1. rewrite Ha. unfold ret at 1. exact Hb.
    + split; [congruence|]. split; [congruence|].
      rewrite Hmb, Hm. reflexivity.
Qed.

Lemma add_list_effect_full (list_name : string) (s : session) :
  exists add_list s',
    get_or_create List.t (list_kwargs list_name) s = (Val add_list, s')
    /\ memberships s' = memberships s
    /\ listings s' = listings s
    /\ find (filter_by List.t (list_kwargs list_name)) (lists s') = Some add_list
    /\ List.id add_list = list_key list_name s
    /\ (keyed (lists s) = true -> exists i, List.id add_list = Some i).
Proof.
  unfold list_key.
  destruct (find (filter_by List.t (list_kwargs list_name)) (lists s)) as [l|] eqn:E.
  - exists l, s.
    rewrite (get_or_create_found (dtype := List.t) _ s l E).
    repeat split; auto. intros Hk.
    apply find_some in E. exact (keyed_pk (lists s) l Hk (proj1 E)).
  - eexists _, _.
    rewrite (get_or_create_new (dtype := List.t) _ s E).
    split; [reflexivity|]. split; [reflexivity|]. split; [reflexivity|].
    split; [|split; [reflexivity|intros _; eexists; reflexivity]].
    cbn [lists rows set_rows List_table set_lists].
    apply find_app_last; [exact E|]. cbn. now rewrite String.eqb_refl.
Qed.

(** What [add_ids_to_list] does for a list of ids that is not empty. *)
Lemma add_ids_to_list_effect (id0 : Z) (rest : list Z) (list_name : string)
    (s : session) :
  exists s1 l,
    add_ids_to_list (id0 :: rest) list_name s = (Val tt, s1)
    /\ memberships s1
       = add_rows (list_key list_name s) (id0 :: rest) (memberships s)
    /\ find (filter_by List.t (list_kwargs list_name)) (lists s1) = Some l
    /\ List.id l = list_key list_name s
    /\ (keyed (lists s) = true ->
        List.is_amazon l
        = Some (isinstance_AmazonListing
                  (find (fun a => col_is Z.eqb (Listing.id a) id0) (listings s)))).
Proof.
  destruct (add_list_effect_full list_name s)
    as [add_list [sa [Hgoc [Hms [Hli [Hfind [Hkey Hpk]]]]]]].
  destruct (add_loop_effect add_list (id0 :: rest) sa) as [sb [Hloop [Hlb [Hlib Hmb]]]].
  assert (Hfind' : find (filter_by List.t (list_kwargs list_name)) (lists sb)
                   = Some add_list) by now rewrite Hlb.
  set (flag := isinstance_AmazonListing
                 (find (fun a => col_is Z.eqb (Listing.id a) id0) (listings sb))).
  assert (Hcall : forall l0 s1,
             assign (fun l => List.mk (List.id l) (List.name l) (Some flag)) add_list sb
             = (Val l0, s1) ->
             add_ids_to_list (id0 :: rest) list_name s = (Val tt, s1)).
  { intros l0 s1 Hassign.
    change (add_ids_to_list (id0 :: rest) list_name s)
      with ((add_list <- get_or_create List.t (list_kwargs list_name) ;;
             for_each (id0 :: rest)
                      (fun listing_id =>
                         _ <- get_or_create ListMembership.t
                                (relation_kwargs add_list listing_id) ;;
                         ret tt) ;;;
             (first_ <- first Listing.t (fun l => col_is Z.eqb (Listing.id l) id0) ;;
              _ <- assign (fun l => List.mk (List.id l) (List.name l)
                                            (Some (isinstance_AmazonListing first_)))
                          add_list ;;
              ret tt)) s).
    unfold bind at 1. rewrite Hgoc. unfold bind at 1. rewrite Hloop.
    unfold bind at 1. unfold first at 1. cbn [rows Listing_table].
    unfold bind at 1. fold flag. rewrite Hassign. reflexivity. }
  unfold assign in Hcall.
  destruct (pk add_list) as [i|] eqn:Hi.
  - eexists _, _. split; [eapply Hcall; reflexivity|].
    cbn [memberships lists rows set_rows List_table set_lists].
    split; [rewrite Hmb, Hms, Hkey; reflexivity|].
    split.
    { refine (find_replace _ (lists sb) add_list _ i Hfind' Hi _).
      apply find_some in Hfind'. exact (proj2 Hfind'). }
    split; [exact Hkey|].
    intros _. cbn [List.is_amazon]. unfold flag. now rewrite Hlib, Hli.
  - exists sb, add_list. split; [eapply Hcall; reflexivity|].
    split; [rewrite Hmb, Hms, Hkey; reflexivity|].
    split; [exact Hfind'|]. split; [exact Hkey|].
    intros Hk. destruct (Hpk Hk) as [i Hi']. cbn in Hi. congruence.
Qed.

(** X13: [add_ids_to_list] gives every id a membership in the list, loses no
    membership, and keeps the invariants of the membership table. *)
Theorem add_ids_to_list_members (id0 : Z) (rest : list Z) (list_name : string)
    (s : session) :
  exists s1 l,
    add_ids_to_list (id0 :: rest) list_name s = (Val tt, s1)
    /\ find (filter_by List.t (list_kwargs list_name)) (lists s1) = Some l
    /\ (forall x, In x (id0 :: rest) ->
                  exists m, In m (memberships s1)
                            /\ ListMembership.list_id m = List.id l
                            /\ ListMembership.listing_id m = Some x)
    /\ (forall m, In m (memberships s) -> In m (memberships s1))
    /\ (tidy (List.id l) (memberships s) -> tidy (List.id l) (memberships s1)).
Proof.
  destruct (add_ids_to_list_effect id0 rest list_name s)
    as [s1 [l [Hcall [Hms [Hfind [Hid _]]]]]].
  exists s1, l. split; [exact Hcall|]. split; [exact Hfind|].
  rewrite Hms, Hid. split; [|split].
  - intros x Hx.
    destruct (add_rows_has (list_key list_name s) (id0 :: rest) (memberships s) x Hx)
      as [m [Hin Hm]].
    exists m. apply is_member_iff in Hm. tauto.
  - intros m. apply add_rows_incl.
  - apply add_rows_tidy.
Qed.

(** X14: Adding the same ids to the same list again adds no membership. *)
Theorem add_ids_to_list_again (id0 : Z) (rest : list Z) (list_name : string)
    (s : session) :
  exists s1 s2,
    add_ids_to_list (id0 :: rest) list_name s = (Val tt, s1)
    /\ add_ids_to_list (id0 :: rest) list_name s1 = (Val tt, s2)
    /\ memberships s2 = memberships s1.
Proof.
  destruct (add_ids_to_list_effect id0 rest list_name s)
    as [s1 [l [Hcall [Hms [Hfind [Hid _]]]]]].
  destruct (add_ids_to_list_effect id0 rest list_name s1)
    as [s2 [l2 [Hcall2 [Hms2 _]]]].
  exists s1, s2. split; [exact Hcall|]. split; [exact Hcall2|].
  assert (Hkey : list_key list_name s1 = list_key list_name s).
  { unfold list_key at 1. now rewrite Hfind. }
  rewrite Hms2, Hkey. apply add_rows_present.
  intros x Hx. rewrite Hms. now apply add_rows_has.
Qed.

(** X15: The flag [is_amazon] of the list is read off the first id alone: it is
    true exactly when a listing with that id exists and is an AmazonListing. *)
Theorem add_ids_to_list_is_amazon (id0 : Z) (rest : list Z) (list_name : string)
    (s : session) :
  keyed (lists s) = true ->
  exists s1 l,
    add_ids_to_list (id0 :: rest) list_name s = (Val tt, s1)
    /\ find (filter_by List.t (list_kwargs list_name)) (lists s1) = Some l
    /\ List.is_amazon l
       = Some (isinstance_AmazonListing
                 (find (fun a => col_is Z.eqb (Listing.id a) id0) (listings s))).
Proof.
  intros Hk.
  destruct (add_ids_to_list_effect id0 rest list_name s)
    as [s1 [l [Hcall [_ [Hfind [_ Hflag]]]]]].
  exists s1, l. auto.
Qed.

Lemma add_ids_to_list_is_amazon_witness :
  keyed (lists empty_session) = true
  /\ exists s1 l,
      add_ids_to_list [3; 4] "wishlist"%string empty_session = (Val tt, s1)
      /\ find (filter_by List.t (list_kwargs "wishlist"%string)) (lists s1) = Some l
      /\ List.is_amazon l = Some false.
Proof.
  split; [reflexivity|].
  exact (add_ids_to_list_is_amazon 3 [4] "wishlist"%string empty_session eq_refl).
Defined.

Lemma remove_loop_effect (key : option Z) (ids : list Z) :
  forall s,
    exists s',
      for_each ids (fun listing_id =>
        membership <- first ListMembership.t
                        (filter_by ListMembership.t
                           [Membership_list_id key;
                            Membership_listing_id listing_id]) ;;
        match membership with
        | Some m => delete m
        | None => ret tt
        end) s = (Val tt, s')
      /\ lists s' = lists s
      /\ memberships s' = del_rows key ids (memberships s).
Proof.
  induction ids as [|x ids IH]; intros s.
  - exists s. repeat split.
  - destruct (remove_round_effect key x s) as [sa [Ha [Hla Hma]]].
    destruct (IH sa) as [sb [Hb [Hlb Hmb]]].
    exists sb. cbn [for_each del_rows fold_left].
    split; [|split; [congruence|now rewrite Hmb, Hma]].
    unfold bind at 1. rewrite Ha. exact Hb.
Qed.

Lemma remove_ids_from_list_effect (ids : list Z) (list_name : string)
    (s : session) (l : List.t) :
  find (filter_by List.t (list_kwargs list_name)) (lists s) = Some l ->
  exists s1,
    remove_ids_from_list ids list_name s = (Val tt, s1)
    /\ lists s1 = lists s
    /\ memberships s1 = del_rows (List.id l) ids (memberships s).
Proof.
  intros E. destruct ids as [|x ids].
  - exists s. rewrite remove_ids_from_list_no_ids. repeat split.
  - destruct (remove_loop_effect (List.id l) (x :: ids) s) as [s1 [H1 [Hl Hm]]].
    exists s1. split; [|split; assumption].
    unfold remove_ids_from_list. fold (list_kwargs list_name).
    unfold bind at 1. unfold first at 1. cbn [rows List_table]. rewrite E.
    exact H1.
Qed.

Lemma without_all_nil (key : option Z) (ms : list ListMembership.t) :
  without_all key [] ms = ms.
Proof. unfold without_all. apply filter_all. reflexivity. Qed.

Lemma without_all_cons (key : option Z) (x : Z) (ids : list Z)
    (ms : list ListMembership.t) :
  without_all key (x :: ids) ms
  = without_all key ids (filter (fun m => negb (is_member key x m)) ms).
Proof.
  unfold without_all. rewrite <- filter_andb.
  apply filter_ext. intros m. cbn [existsb].
  rewrite negb_orb. apply andb_comm.
Qed.

Lemma del_rows_without_all (key : option Z) (ids : list Z) :
  forall ms, tidy key ms -> del_rows key ids ms = without_all key ids ms.
Proof.
  induction ids as [|x ids IH]; intros ms Ht.
  - now rewrite without_all_nil.
  - cbn [del_rows fold_left]. rewrite without_all_cons.
    rewrite (del_row_filter key x ms Ht).
    apply IH. now apply tidy_filter.
Qed.

Lemma without_all_In (key : option Z) (ids : list Z) (ms : list ListMembership.t)
    (m : ListMembership.t) :
  In m (without_all key ids ms)
  <-> In m ms
      /\ ~ (ListMembership.list_id m = key
            /\ exists x, In x ids /\ ListMembership.listing_id m = Some x).
Proof.
  unfold without_all. rewrite filter_In. apply and_iff_compat_l.
  rewrite negb_true_iff, <- not_true_iff_false, existsb_exists.
  split; intros Hn H; apply Hn.
  - destruct H as [Hk [x [Hx Hm]]]. exists x. split; [exact Hx|].
    apply is_member_iff. tauto.
  - destruct H as [x [Hx Hm]]. apply is_member_iff in Hm.
    split; [tauto|]. exists x. tauto.
Qed.

Lemma without_all_add_row (key : option Z) (ids : list Z) (x : Z)
    (ms : list ListMembership.t) :
  In x ids -> without_all key ids (add_row key x ms) = without_all key ids ms.
Proof.
  intros Hx. unfold add_row.
  destruct (find (filter_by ListMembership.t (member_kwargs key x)) ms);
    [reflexivity|].
  unfold without_all. rewrite filter_app. cbn [filter].
  match goal with
  | |- context [existsb ?f ids] =>
      assert (Hex : existsb f ids = true)
  end.
  { apply existsb_exists. exists x. split; [exact Hx|].
    apply is_member_iff. cbn. auto. }
  rewrite Hex. cbn [negb]. apply app_nil_r.
Qed.

Lemma without_all_add_rows (key : option Z) (ids : list Z) (added : list Z) :
  forall ms,
    incl added ids ->
    without_all key ids (add_rows key added ms) = without_all key ids ms.
Proof.
  induction added as [|x added IH]; intros ms Hincl; [reflexivity|].
  cbn [add_rows fold_left].
  rewrite <- (without_all_add_row key ids x ms) by (apply Hincl; now left).
  apply IH. intros y Hy. apply Hincl. now right.
Qed.

(** X16: In a membership table that keeps its invariants, [remove_ids_from_list]
    takes out exactly the memberships of the given listings in the list:
    every other membership stays, and the invariants still hold. *)
Theorem remove_ids_from_list_exact (ids : list Z) (list_name : string)
    (s : session) (l : List.t) :
  find (filter_by List.t (list_kwargs list_name)) (lists s) = Some l ->
  tidy (List.id l) (memberships s) ->
  exists s1,
    remove_ids_from_list ids list_name s = (Val tt, s1)
    /\ lists s1 = lists s
    /\ memberships s1 = without_all (List.id l) ids (memberships s)
    /\ (forall m,
           In m (memberships s1)
           <-> In m (memberships s)
               /\ ~ (ListMembership.list_id m = List.id l
                     /\ exists x, In x ids /\ ListMembership.listing_id m = Some x))
    /\ tidy (List.id l) (memberships s1).
Proof.
  intros E Ht.
  destruct (remove_ids_from_list_effect ids list_name s l E) as [s1 [H1 [Hl Hm]]].
  rewrite (del_rows_without_all _ ids _ Ht) in Hm.
  exists s1. split; [exact H1|]. split; [exact Hl|]. split; [exact Hm|].
  rewrite Hm. split.
  - intros m. apply without_all_In.
  - unfold without_all. now apply tidy_filter.
Qed.

Lemma remove_ids_from_list_exact_witness :
  exists s1,
    remove_ids_from_list [3; 4] "wishlist"%string
      (set_memberships [ListMembership.mk (Some 1) (Some 1) (Some 3);
                        ListMembership.mk (Some 2) (Some 1) (Some 5)]
         (set_lists [List.mk (Some 1) (Some "wishlist"%string) None] empty_session))
    = (Val tt, s1)
    /\ memberships s1 = [ListMembership.mk (Some 2) (Some 1) (Some 5)].
Proof.
  destruct (remove_ids_from_list_exact [3; 4] "wishlist"%string
              (set_memberships [ListMembership.mk (Some 1) (Some 1) (Some 3);
                                ListMembership.mk (Some 2) (Some 1) (Some 5)]
                 (set_lists [List.mk (Some 1) (Some "wishlist"%string) None]
                            empty_session))
              (List.mk (Some 1) (Some "wishlist"%string) None) eq_refl)
    as [s1 [H1 [_ [Hm _]]]].
  - split; [reflexivity|]. split; cbn.
    + repeat constructor; cbn; intuition discriminate.
    + repeat constructor; cbn; intuition discriminate.
  - exists s1. split; [exact H1|exact Hm].
Defined.

(** X17: In a membership table that keeps its invariants, adding any ids to a list
    and then removing the same ids leaves the table as it was, less the
    memberships of those listings in the list. *)
Theorem add_then_remove_ids (id0 : Z) (rest : list Z) (list_name : string)
    (s : session) :
  tidy (list_key list_name s) (memberships s) ->
  exists s1 s2,
    add_ids_to_list (id0 :: rest) list_name s = (Val tt, s1)
    /\ remove_ids_from_list (id0 :: rest) list_name s1 = (Val tt, s2)
    /\ memberships s2
       = without_all (list_key list_name s) (id0 :: rest) (memberships s)
    /\ forall m,
        In m (memberships s) ->
        (forall x, In x (id0 :: rest) ->
                   is_member (list_key list_name s) x m = false) ->
        In m (memberships s2).
Proof.
  intros Ht.
  destruct (add_ids_to_list_effect id0 rest list_name s)
    as [s1 [l [Hcall [Hms [Hfind [Hid _]]]]]].
  destruct (remove_ids_from_list_effect (id0 :: rest) list_name s1 l Hfind)
    as [s2 [Hrm [_ Hms2]]].
  exists s1, s2. split; [exact Hcall|]. split; [exact Hrm|].
  assert (Heq : memberships s2
                = without_all (list_key list_name s) (id0 :: rest) (memberships s)).
  { rewrite Hms2, Hms, Hid.
    rewrite del_rows_without_all by now apply add_rows_tidy.
    apply without_all_add_rows. apply incl_refl. }
  split; [exact Heq|].
  intros m Hin Hno. rewrite Heq. unfold without_all. apply filter_In.
  split; [exact Hin|]. apply negb_true_iff, not_true_iff_false.
  intros Hex. apply existsb_exists in Hex. destruct Hex as [x [Hx Hm]].
  rewrite (Hno x Hx) in Hm. discriminate.
Qed.

Lemma add_then_remove_ids_witness :
  exists s1 s2,
    add_ids_to_list [3; 4; 6] "wishlist"%string empty_session = (Val tt, s1)
    /\ remove_ids_from_list [3; 4; 6] "wishlist"%string s1 = (Val tt, s2)
    /\ memberships s2 = [].
Proof.
  destruct (add_then_remove_ids 3 [4; 6] "wishlist"%string empty_session)
    as [s1 [s2 [H1 [H2 [Hm _]]]]].
  - split; [reflexivity|]. split; constructor.
  - exists s1, s2. split; [exact H1|]. split; [exact H2|exact Hm].
Defined.

(** ** Averages *)






